(** * CAD2FEA-Optimizer: the export fetch and the mesh conversion pipeline

    A shallow embedding of [src/stl_exporter.py] and [src/stl_converter.py].
    Both modules are glue around external libraries (requests, trimesh,
    pymeshfix, tetgen, meshio).  The external routines are parameters of the
    development; the glue itself (control flow, exception handling, the
    arguments handed to each routine, the order of the calls) is embedded as
    written, in a state-and-exception monad whose state records every call
    that leaves the program. *)

From Stdlib Require Import ZArith String List PrimFloat.
From stdpp Require Import gmap strings list sorting pretty.

Open Scope string_scope.
Open Scope list_scope.
Open Scope Z_scope.

(** ** Python values, exceptions and the effect monad *)

Module Py.

(** [bytes] objects. *)
Definition bytes := list Byte.byte.

(** The exception classes that occur in the two modules: the builtin
    ones, the [requests.exceptions] hierarchy rooted at
    [RequestException], and any other class by name. *)
Inductive exn_class :=
| RuntimeError
| ValueError
| OSError
| RequestException
| HTTPError
| ConnectionError
| Timeout
| TooManyRedirects
| MissingSchema
| InvalidURL
| OtherError (name : string).

(** An exception instance: class, message ([str(e)]) and [__cause__]
    (set by [raise ... from e]). *)
#[warnings="-register-all"]
Inductive exn :=
| Exn (cls : exn_class) (msg : string) (cause : option exn).

Definition exn_cls (e : exn) : exn_class := let 'Exn c _ _ := e in c.
Definition exn_msg (e : exn) : string := let 'Exn _ m _ := e in m.
Definition exn_cause (e : exn) : option exn := let 'Exn _ _ c := e in c.

(** [issubclass(c, requests.RequestException)]. *)
Definition subclass_of_RequestException (c : exn_class) : bool :=
  match c with
  | RequestException | HTTPError | ConnectionError | Timeout
  | TooManyRedirects | MissingSchema | InvalidURL => true
  | RuntimeError | ValueError | OSError | OtherError _ => false
  end.

(** [isinstance(e, requests.RequestException)]. *)
Definition is_RequestException (e : exn) : bool :=
  subclass_of_RequestException (exn_cls e).

(** The outcome of a call: a value or a raised exception. *)
Inductive result (A : Type) :=
| Ok (a : A)
| Raise (e : exn).
Arguments Ok {A} a.
Arguments Raise {A} e.

(** Computations over a world [W]: the world is threaded through, an
    exception aborts what follows. *)
Definition M (W A : Type) : Type := W -> W * result A.

Definition ret {W A} (a : A) : M W A := fun w => (w, Ok a).

Definition bind {W A B} (m : M W A) (k : A -> M W B) : M W B :=
  fun w =>
    match m w with
    | (w', Ok a) => k a w'
    | (w', Raise e) => (w', Raise e)
    end.

(** [raise e]. *)
Definition raise {W A} (e : exn) : M W A := fun w => (w, Raise e).

(** [try: body / except <class> as e: handler e]; [catches] is the
    [isinstance] test of the except clause. *)
Definition try_except {W A} (body : M W A) (catches : exn -> bool)
           (handler : exn -> M W A) : M W A :=
  fun w =>
    match body w with
    | (w', Ok a) => (w', Ok a)
    | (w', Raise e) => if catches e then handler e w' else (w', Raise e)
    end.

#[global] Instance M_ret {W} : MRet (M W) := fun _ a => ret a.
#[global] Instance M_bind {W} : MBind (M W) := fun _ _ k m => bind m k.

(** Truthiness of an optional string, as tested by [if not x]: [None]
    and the empty string are false. *)
Definition truthy (x : option string) : bool :=
  match x with
  | None => false
  | Some s => negb (String.eqb s "")
  end.

(** [str.lower] on a header name (header names are ASCII: the letters
    A..Z are mapped, every other character is kept). *)
Definition lower_ascii (c : Ascii.ascii) : Ascii.ascii :=
  let n := Ascii.nat_of_ascii c in
  if ((65 <=? n) && (n <=? 90))%nat then Ascii.ascii_of_nat (n + 32) else c.

Fixpoint str_lower (s : string) : string :=
  match s with
  | EmptyString => EmptyString
  | String c rest => String (lower_ascii c) (str_lower rest)
  end.

End Py.

Import Py.

(** ** src/stl_exporter.py *)

Module Exporter.

(** A [requests.Response], with the attributes the module and
    [raise_for_status] read.  [headers] is keyed by header name;
    requests compares names without regard to case, so a name stands
    here in the spelling the module asks for. *)
Record Response := {
  status_code : Z;
  reason : string;
  url : string;
  headers : gmap string string;
  content : bytes
}.

(** [requests.structures.CaseInsensitiveDict], as requests stores it:
    under the lower-cased name, the name as last set and the value. *)
Abbreviation CaseInsensitiveDict := (gmap string (string * string)).

(** [d[name] = value]. *)
Definition cid_set (name value : string) (d : CaseInsensitiveDict)
  : CaseInsensitiveDict :=
  <[str_lower name := (name, value)]> d.

(** [d.get(name)]. *)
Definition cid_get (name : string) (d : CaseInsensitiveDict) : option string :=
  snd <$> d !! str_lower name.

(** [d.update(other)] for a plain dict [other], given by its items in
    insertion order: each item is set in turn. *)
Definition cid_update (other : list (string * string))
           (d : CaseInsensitiveDict) : CaseInsensitiveDict :=
  foldl (fun acc item => cid_set item.1 item.2 acc) d other.

(** [CaseInsensitiveDict(items)]. *)
Definition cid_of_items (items : list (string * string))
  : CaseInsensitiveDict :=
  cid_update items ∅.

(** A [requests.Session]: credentials and session headers. *)
Record Session := {
  auth : option (string * string);
  session_headers : CaseInsensitiveDict
}.

(** A GET as it leaves the session. *)
Record Request := {
  req_url : string;
  req_allow_redirects : bool;
  req_auth : option (string * string);
  req_headers : CaseInsensitiveDict
}.

Inductive level := DEBUG | INFO | ERROR.

(** The world of the exporter: the requests issued so far, oldest
    first, and the records handed to the module's logger. *)
Record World := {
  sent : list Request;
  log : list (level * string)
}.

Definition logger (l : level) (m : string) : M World unit :=
  fun w => ({| sent := sent w; log := log w ++ [(l, m)] |}, Ok tt).

Definition logger_debug := logger DEBUG.
Definition logger_info := logger INFO.
Definition logger_error := logger ERROR.

(** [Response.raise_for_status] of requests: an [HTTPError] for a
    status in 400..599, nothing otherwise. *)
Definition raise_for_status (r : Response) : M World unit :=
  if (400 <=? status_code r) && (status_code r <? 500) then
    raise (Exn HTTPError
               (pretty (status_code r) +:+ " Client Error: " +:+ reason r
                +:+ " for url: " +:+ url r) None)
  else if (500 <=? status_code r) && (status_code r <? 600) then
    raise (Exn HTTPError
               (pretty (status_code r) +:+ " Server Error: " +:+ reason r
                +:+ " for url: " +:+ url r) None)
  else ret tt.

(** The GET a session issues for a URL: it carries the session's
    credentials and headers. *)
Definition get_request (session : Session) (u : string)
           (allow_redirects : bool) : Request :=
  {| req_url := u;
     req_allow_redirects := allow_redirects;
     req_auth := auth session;
     req_headers := session_headers session |}.

Definition export_url (base_url document_id workspace_id element_id : string)
  : string :=
  base_url +:+ "/partstudios/d/" +:+ document_id +:+ "/w/" +:+ workspace_id
           +:+ "/e/" +:+ element_id +:+ "/export/step".

(** The first request of a fetch: the export endpoint, redirects not
    followed. *)
Definition export_request (session : Session)
           (base_url document_id workspace_id element_id : string) : Request :=
  get_request session
    (export_url base_url document_id workspace_id element_id) false.

Section WithTransport.

(** The transport under the session: given the requests issued before
    and the current one, a response or a raised exception. *)
Variable transport : list Request -> Request -> result Response.

(** The headers of a fresh [requests.Session()], by their items. *)
Variable default_headers : list (string * string).

(** [src/constants.py] is not part of the sources: its two constants
    are parameters; the dict [STEP_HEADERS] is given by its items in
    insertion order. *)
Variable BASE_URL : string.
Variable STEP_HEADERS : list (string * string).

(** [session.get(url, allow_redirects=...)]: the request is recorded,
    then answered by the transport. *)
Definition session_get (session : Session) (u : string)
           (allow_redirects : bool) : M World Response :=
  fun w =>
    let rq := get_request session u allow_redirects in
    ({| sent := sent w ++ [rq]; log := log w |}, transport (sent w) rq).

Definition create_session (access_key secret_key : string)
           (hdrs : list (string * string)) : Session :=
  {| auth := Some (access_key, secret_key);
     session_headers := cid_update hdrs (cid_of_items default_headers) |}.

Definition fetch_step_content (document_id workspace_id element_id : string)
           (session : Session) (base_url : string) : M World bytes :=
  let u := export_url base_url document_id workspace_id element_id in
  try_except
    (response ← session_get session u false;
     _ ← raise_for_status response;
     if (status_code response =? 302) || (status_code response =? 307) then
       let redirect_url := headers response !! "Location" in
       if negb (truthy redirect_url) then
         raise (Exn RuntimeError
                    "Redirect expected but 'Location' header is missing."
                    None)
       else
         _ ← logger_info ("Following redirect to: "
                           +:+ default "" redirect_url);
         step_response ← session_get session (default "" redirect_url) true;
         _ ← raise_for_status step_response;
         _ ← logger_info "STEP content fetched successfully.";
         mret (content step_response)
     else
       raise (Exn RuntimeError
                  ("Unexpected response status code: "
                   +:+ pretty (status_code response)) None))
    is_RequestException
    (fun e =>
       _ ← logger_error ("Failed to fetch STEP content: " +:+ exn_msg e);
       raise (Exn RuntimeError "Failed to fetch STEP content." (Some e))).

Definition export_step (document_id workspace_id element_id
                        access_key secret_key : string) : M World bytes :=
  _ ← logger_debug "Creating session for part studio export.";
  let session := create_session access_key secret_key STEP_HEADERS in
  content ← fetch_step_content document_id workspace_id element_id
                               session BASE_URL;
  mret content.

End WithTransport.

End Exporter.

(** ** src/stl_converter.py *)

Module Converter.

(** A two-dimensional numpy array, as its list of rows. *)
Definition ndarray (A : Type) : Type := list (list A).

(** Values of the entries of the [tetgen_options] dict. *)
Inductive PyVal :=
| VBool (b : bool)
| VInt (z : Z)
| VFloat (x : float)
| VStr (s : string).

(** The objects of the external libraries, with the attributes the
    module reads or sets. *)
Module trimesh.
Record Trimesh := { vertices : ndarray float; faces : ndarray Z }.
End trimesh.

Module pymeshfix.
Record MeshFix := { v : ndarray float; f : ndarray Z }.
End pymeshfix.

Module tetgen.
Record TetGen := { node : ndarray float; elem : ndarray Z }.
End tetgen.

Module meshio.
(** [meshio.Mesh(points=..., cells=...)]: the points and the list of
    cell blocks, each a cell-type marker with its connectivity array. *)
Record Mesh := {
  points : ndarray float;
  cells : list (string * ndarray Z)
}.
End meshio.

(** The keyword arguments of [MeshFix.repair]. *)
Record RepairArgs := {
  verbose : bool;
  joincomp : bool;
  remove_smallest_components : bool
}.

(** The file system: the content stored under each path. *)
Abbreviation FileSystem := (gmap string bytes).

(** The external routines the module calls.  Each one returns or raises;
    the methods that update their object in place return the object as
    it is after the call; [meshio_write] also acts on the file system. *)
Class Libraries := {
  trimesh_load : bytes -> string -> result trimesh.Trimesh;
  MeshFix_new : ndarray float -> ndarray Z -> result pymeshfix.MeshFix;
  MeshFix_repair : pymeshfix.MeshFix -> RepairArgs -> result pymeshfix.MeshFix;
  TetGen_new : ndarray float -> ndarray Z -> result tetgen.TetGen;
  TetGen_tetrahedralize :
    tetgen.TetGen -> gmap string PyVal -> result tetgen.TetGen;
  meshio_write :
    string -> meshio.Mesh -> FileSystem -> FileSystem * result unit
}.

(** A call into an external library, with its arguments. *)
Inductive Call :=
| CallTrimeshLoad (data : bytes) (file_type : string)
| CallMeshFix (vertices : ndarray float) (faces : ndarray Z)
| CallRepair (self : pymeshfix.MeshFix) (args : RepairArgs)
| CallTetGen (vertices : ndarray float) (faces : ndarray Z)
| CallTetrahedralize (self : tetgen.TetGen) (kwargs : gmap string PyVal)
| CallMeshioWrite (path : string) (mesh : meshio.Mesh).

(** The world of the converter: the external calls made so far, oldest
    first, and the file system. *)
Record World := {
  calls : list Call;
  fs : FileSystem
}.

(** Record a call, then run it. *)
Definition call {A} (c : Call) (r : result A) : M World A :=
  fun w => ({| calls := calls w ++ [c]; fs := fs w |}, r).

Definition call_fs {A} (c : Call)
           (run : FileSystem -> FileSystem * result A) : M World A :=
  fun w => let '(fs', r) := run (fs w) in
           ({| calls := calls w ++ [c]; fs := fs' |}, r).

(** [x or {}] on an optional dict: [None] and the empty dict give a
    fresh empty dict. *)
Definition or_empty_dict (x : option (gmap string PyVal)) : gmap string PyVal :=
  match x with
  | None => ∅
  | Some d => if decide (d = ∅) then ∅ else d
  end.

Section WithLibraries.

Context {L : Libraries}.

Definition create_2d_mesh (stl_data : bytes)
  : M World (ndarray float * ndarray Z) :=
  trimesh_mesh ← call (CallTrimeshLoad stl_data "stl")
                      (trimesh_load stl_data "stl");
  let vertices := trimesh.vertices trimesh_mesh in
  let faces := trimesh.faces trimesh_mesh in
  mret (vertices, faces).

Definition clean_mesh (vertices : ndarray float) (faces : ndarray Z)
  : M World (ndarray float * ndarray Z) :=
  meshfix ← call (CallMeshFix vertices faces) (MeshFix_new vertices faces);
  let args := {| verbose := true; joincomp := true;
                 remove_smallest_components := false |} in
  meshfix ← call (CallRepair meshfix args) (MeshFix_repair meshfix args);
  mret (pymeshfix.v meshfix, pymeshfix.f meshfix).

Definition tetrahedralize_mesh (vertices : ndarray float) (faces : ndarray Z)
           (tetgen_options : option (gmap string PyVal))
  : M World (ndarray float * ndarray Z) :=
  tgen ← call (CallTetGen vertices faces) (TetGen_new vertices faces);
  let tetgen_options := or_empty_dict tetgen_options in
  tgen ← call (CallTetrahedralize tgen tetgen_options)
              (TetGen_tetrahedralize tgen tetgen_options);
  mret (tetgen.node tgen, tetgen.elem tgen).

Definition save_mesh_to_vtk (nodes : ndarray float) (cells : ndarray Z)
           (path : string) : M World unit :=
  let mesh := {| meshio.points := nodes;
                 meshio.cells := [("tetra", cells)] |} in
  call_fs (CallMeshioWrite path mesh) (meshio_write path mesh).

Definition stl_to_vtk (stl_data : bytes) (output_path : string)
           (tetgen_options : option (gmap string PyVal)) : M World unit :=
  '(vertices, faces) ← create_2d_mesh stl_data;
  '(clean_vertices, clean_faces) ← clean_mesh vertices faces;
  '(nodes, cells) ← tetrahedralize_mesh clean_vertices clean_faces
                                        tetgen_options;
  save_mesh_to_vtk nodes cells output_path.

(** The pipeline as the specification words it: four stages chained,
    each stage's output being the next stage's input. *)
Definition then_stage {A B C} (s1 : A -> M World B) (s2 : B -> M World C)
  : A -> M World C :=
  fun a => bind (s1 a) s2.

Definition pipeline (output_path : string)
           (tetgen_options : option (gmap string PyVal))
  : bytes -> M World unit :=
  then_stage create_2d_mesh
    (then_stage (fun s => clean_mesh s.1 s.2)
       (then_stage (fun s => tetrahedralize_mesh s.1 s.2 tetgen_options)
          (fun m => save_mesh_to_vtk m.1 m.2 output_path))).

(** The stages of the pipeline, in order. *)
Inductive Stage := Parse | Repair | Tetrahedralize | Serialize.

Definition stage_index (s : Stage) : nat :=
  match s with
  | Parse => 0 | Repair => 1 | Tetrahedralize => 2 | Serialize => 3
  end%nat.

(** The stage an external call belongs to. *)
Definition stage_of (c : Call) : Stage :=
  match c with
  | CallTrimeshLoad _ _ => Parse
  | CallMeshFix _ _ | CallRepair _ _ => Repair
  | CallTetGen _ _ | CallTetrahedralize _ _ => Tetrahedralize
  | CallMeshioWrite _ _ => Serialize
  end.

(** The calls made between an earlier world and a later one. *)
Definition calls_since (w w' : World) : list Call :=
  drop (length (calls w)) (calls w').

(** [touches s w w']: from [w] to [w'] only calls of stage [s] were
    added, and the file system is the same. *)
Definition touches (s : Stage) (w w' : World) : Prop :=
  exists cs, calls w' = calls w ++ cs /\
             Forall (fun c => stage_of c = s) cs /\
             fs w' = fs w.

(** [stage_fails data path opts w s e w']: started in [w], every stage
    before [s] returns and stage [s], run on their output, raises [e]
    leaving the world [w']. *)
Inductive stage_fails (stl_data : bytes) (output_path : string)
          (tetgen_options : option (gmap string PyVal)) (w : World)
  : Stage -> exn -> World -> Prop :=
| parse_fails e w1 :
    create_2d_mesh stl_data w = (w1, Raise e) ->
    stage_fails stl_data output_path tetgen_options w Parse e w1
| repair_fails vs fcs e w1 w2 :
    create_2d_mesh stl_data w = (w1, Ok (vs, fcs)) ->
    clean_mesh vs fcs w1 = (w2, Raise e) ->
    stage_fails stl_data output_path tetgen_options w Repair e w2
| tetrahedralize_fails vs fcs cvs cfs e w1 w2 w3 :
    create_2d_mesh stl_data w = (w1, Ok (vs, fcs)) ->
    clean_mesh vs fcs w1 = (w2, Ok (cvs, cfs)) ->
    tetrahedralize_mesh cvs cfs tetgen_options w2 = (w3, Raise e) ->
    stage_fails stl_data output_path tetgen_options w Tetrahedralize e w3
| serialize_fails vs fcs cvs cfs nds cls e w1 w2 w3 w4 :
    create_2d_mesh stl_data w = (w1, Ok (vs, fcs)) ->
    clean_mesh vs fcs w1 = (w2, Ok (cvs, cfs)) ->
    tetrahedralize_mesh cvs cfs tetgen_options w2 = (w3, Ok (nds, cls)) ->
    save_mesh_to_vtk nds cls output_path w3 = (w4, Raise e) ->
    stage_fails stl_data output_path tetgen_options w Serialize e w4.

End WithLibraries.

End Converter.

(** ** Concrete transports and libraries

    Mocks on which the statements below are run. *)

Module Mock.

Import Exporter Converter.

Definition payload : bytes := list_byte_of_string "ISO-10303-21;".

(** A transport that answers the n-th request with the n-th entry of a
    script and refuses the connection once the script is used up. *)
Definition scripted (script : list (result Response))
  : list Request -> Request -> result Response :=
  fun history _ =>
    default (Raise (Exn ConnectionError "Connection refused" None))
            (script !! length history).

Definition response (status : Z) (why : string)
           (hdrs : gmap string string) (body : bytes) : Response :=
  {| status_code := status; reason := why; url := "http://x/export";
     headers := hdrs; content := body |}.

Definition found_with_location : Response :=
  response 302 "Found" {[ "Location" := "http://x/payload" ]} [].

Definition found_with_empty_location : Response :=
  response 302 "Found" {[ "Location" := "" ]} [].

Definition found_without_location : Response :=
  response 302 "Found" ∅ [].

Definition ok_with_payload : Response :=
  response 200 "OK" ∅ payload.

Definition not_found : Response :=
  response 404 "Not Found" ∅ [].

Definition session : Session :=
  create_session [] "access" "secret" [("Accept", "application/json")].

Definition idle : Exporter.World := {| sent := []; log := [] |}.

Definition base : string := "https://cad.example/api".

(** The request a fetch for document [d], workspace [w], element [e]
    starts with. *)
Definition first_request : Request := export_request session base "d" "w" "e".

(** Every scripted outcome is a response or a [RequestException]. *)
Definition requests_script (script : list (result Response)) : Prop :=
  Forall (fun r => match r with
                   | Ok _ => True
                   | Raise e => is_RequestException e = true
                   end) script.

(** Libraries in which every routine succeeds: a single triangle comes
    out of the parser, repair and tetrahedralization hand back fixed
    arrays, and writing stores a marker under the path. *)
Definition surface : trimesh.Trimesh :=
  {| trimesh.vertices := [[0; 0; 0]; [1; 0; 0]; [0; 1; 0]]%float;
     trimesh.faces := [[0; 1; 2]] |}.

Definition volume : tetgen.TetGen :=
  {| tetgen.node := [[0; 0; 0]; [1; 0; 0]; [0; 1; 0]; [0; 0; 1]]%float;
     tetgen.elem := [[0; 1; 2; 3]] |}.

Definition working : Libraries := {|
  trimesh_load := fun _ _ => Ok surface;
  MeshFix_new := fun vs fcs => Ok {| pymeshfix.v := vs; pymeshfix.f := fcs |};
  MeshFix_repair := fun self _ => Ok self;
  TetGen_new := fun _ _ => Ok {| tetgen.node := []; tetgen.elem := [] |};
  TetGen_tetrahedralize := fun _ _ => Ok volume;
  meshio_write := fun path _ files =>
    (<[path := list_byte_of_string "# vtk DataFile Version 5.1"]> files, Ok tt)
|}.

(** The same libraries, except that tetrahedralization is refused. *)
Definition tetgen_error : exn :=
  Exn RuntimeError "Failed to tetrahedralize." None.

Definition failing_tetgen : Libraries := {|
  trimesh_load := fun _ _ => Ok surface;
  MeshFix_new := fun vs fcs => Ok {| pymeshfix.v := vs; pymeshfix.f := fcs |};
  MeshFix_repair := fun self _ => Ok self;
  TetGen_new := fun _ _ => Ok {| tetgen.node := []; tetgen.elem := [] |};
  TetGen_tetrahedralize := fun _ _ => Raise tetgen_error;
  meshio_write := fun path _ files =>
    (<[path := list_byte_of_string "# vtk DataFile Version 5.1"]> files, Ok tt)
|}.

Definition blank : Converter.World := {| calls := []; fs := ∅ |}.

(** The world in which a conversion of [blank] stops when
    tetrahedralization is refused. *)
Definition stopped (opts : gmap string PyVal) : Converter.World :=
  {| calls :=
       [CallTrimeshLoad [] "stl";
        CallMeshFix (trimesh.vertices surface) (trimesh.faces surface);
        CallRepair {| pymeshfix.v := trimesh.vertices surface;
                      pymeshfix.f := trimesh.faces surface |}
                   {| verbose := true; joincomp := true;
                      remove_smallest_components := false |};
        CallTetGen (trimesh.vertices surface) (trimesh.faces surface);
        CallTetrahedralize {| tetgen.node := []; tetgen.elem := [] |} opts];
     fs := ∅ |}.

Definition quality : gmap string PyVal :=
  {[ "maxvolume" := VFloat 1.0%float; "mindratio" := VFloat 1.5%float ]}.

(** Further scripted answers: a temporary redirect, a follow-up without
    content, a server error, and exceptions of the transport. *)
Definition temporary_redirect : Response :=
  response 307 "Temporary Redirect" {[ "Location" := "http://x/payload" ]} [].

Definition no_content : Response :=
  response 204 "No Content" ∅ [].

Definition server_error : Response :=
  response 500 "Internal Server Error" ∅ [].

Definition timed_out : exn := Exn Timeout "Read timed out." None.

Definition interrupted : exn :=
  Exn (OtherError "KeyboardInterrupt") "" None.

(** Libraries in which the constructors refuse their input. *)
Definition bad_arrays : exn :=
  Exn ValueError "Invalid face array; expected (n, 3)." None.

Definition refusing_constructors : Libraries := {|
  trimesh_load := fun _ _ => Ok surface;
  MeshFix_new := fun _ _ => Raise bad_arrays;
  MeshFix_repair := fun self _ => Ok self;
  TetGen_new := fun _ _ => Raise bad_arrays;
  TetGen_tetrahedralize := fun _ _ => Ok volume;
  meshio_write := fun path _ files => (files, Ok tt)
|}.

End Mock.

(** ** Reading the traces *)

Module Trace.

Import Exporter Converter.

(** The requests issued between an earlier world and a later one. *)
Definition requests_since (w w' : Exporter.World) : list Request :=
  drop (length (sent w)) (sent w').

(** The log records added between an earlier world and a later one. *)
Definition logged_since (w w' : Exporter.World) : list (level * string) :=
  drop (length (log w)) (log w').

(** [stage_le a b]: the stage of call [a] is not after that of [b]. *)
Definition stage_le (a b : Call) : Prop :=
  (stage_index (stage_of a) <= stage_index (stage_of b))%nat.

(** A call that writes a file. *)
Definition is_write (c : Call) : bool :=
  match c with
  | CallMeshioWrite _ _ => true
  | _ => false
  end.

(** The six calls of a conversion in which every routine returns, given
    the objects the routines hand back. *)
Definition full_run (stl_data : bytes) (output_path : string)
           (kwargs : gmap string PyVal)
           (loaded : trimesh.Trimesh) (meshfix repaired : pymeshfix.MeshFix)
           (tgen meshed : tetgen.TetGen) : list Call :=
  [CallTrimeshLoad stl_data "stl";
   CallMeshFix (trimesh.vertices loaded) (trimesh.faces loaded);
   CallRepair meshfix {| verbose := true; joincomp := true;
                         remove_smallest_components := false |};
   CallTetGen (pymeshfix.v repaired) (pymeshfix.f repaired);
   CallTetrahedralize tgen kwargs;
   CallMeshioWrite output_path
     {| meshio.points := tetgen.node meshed;
        meshio.cells := [("tetra", tetgen.elem meshed)] |}].

End Trace.

(** ** Proofs *)

(** Run the first bind of the goal: the computation on its left is
    exposed, to be rewritten or destructed. *)
Ltac step := unfold mbind at 1, M_bind at 1; unfold Py.bind at 1.

(** ** The export fetch *)

Module ExporterSpec.

Import Exporter.

Lemma not_http_error (r : Response) :
  ¬ (400 <= status_code r < 600) ->
  raise_for_status r = Py.ret tt.
Proof.
  intros H. unfold raise_for_status.
  destruct (400 <=? status_code r) eqn:E1; simpl.
  - destruct (status_code r <? 500) eqn:E2; [lia|].
    destruct (500 <=? status_code r) eqn:E3; simpl; [|reflexivity].
    destruct (status_code r <? 600) eqn:E4; [lia|reflexivity].
  - destruct (500 <=? status_code r) eqn:E3; simpl; [lia|reflexivity].
Qed.

Lemma http_error (r : Response) :
  400 <= status_code r < 600 ->
  exists m, raise_for_status r = Py.raise (Exn HTTPError m None).
Proof.
  intros H. unfold raise_for_status.
  destruct (400 <=? status_code r) eqn:E1; [|lia].
  destruct (status_code r <? 500) eqn:E2; simpl; [eauto|].
  destruct (500 <=? status_code r) eqn:E3; [|lia].
  destruct (status_code r <? 600) eqn:E4; simpl; [eauto|lia].
Qed.

Lemma raise_for_status_cases (r : Response) :
  raise_for_status r = Py.ret tt \/
  exists m, raise_for_status r = Py.raise (Exn HTTPError m None).
Proof.
  destruct (decide (400 <= status_code r < 600)) as [H|H].
  - right. by apply http_error.
  - left. by apply not_http_error.
Qed.

Lemma truthy_location (hdrs : gmap string string) (loc : string) :
  hdrs !! "Location" = Some loc -> loc <> "" ->
  truthy (hdrs !! "Location") = true.
Proof.
  intros -> Hne. simpl. destruct (String.eqb_spec loc ""); [done|reflexivity].
Qed.

(** Step through the first GET of a fetch whose answer is known. *)
Ltac first_get Ht :=
  unfold fetch_step_content, try_except;
  unfold mbind at 1, M_bind at 1; unfold Py.bind at 1;
  unfold session_get at 1;
  change (get_request ?s (export_url ?b ?d ?ws ?e) false)
    with (export_request s b d ws e);
  rewrite Ht.

(** Reduce the glue of a branch that is known to end. *)
Ltac finish :=
  cbv [mbind M_bind Py.bind Py.raise Py.ret mret M_ret
       logger_error logger_info logger_debug logger
       is_RequestException subclass_of_RequestException exn_cls
       truthy negb].


Section Fetch.

Variable transport : list Request -> Request -> result Response.
Variables document_id workspace_id element_id base_url : string.
Variable session : Session.

Lemma fetch_redirect_body (w : World) (r1 r2 : Response) (loc : string) :
  transport (sent w)
    (export_request session base_url document_id workspace_id element_id)
  = Ok r1 ->
  status_code r1 = 302 \/ status_code r1 = 307 ->
  headers r1 !! "Location" = Some loc ->
  loc <> "" ->
  transport
    (sent w ++
       [export_request session base_url document_id workspace_id element_id])
    (get_request session loc true)
  = Ok r2 ->
  ¬ (400 <= status_code r2 < 600) ->
  fetch_step_content transport document_id workspace_id element_id
                     session base_url w
  = ({| sent := sent w ++
            [export_request session base_url document_id workspace_id
                            element_id;
             get_request session loc true];
        log := log w ++
            [(INFO, "Following redirect to: " +:+ loc);
             (INFO, "STEP content fetched successfully.")] |},
     Ok (content r2)).
Proof.
  intros Ht Hs Hloc Hne Ht2 Hs2.
  first_get Ht. step.
  rewrite (not_http_error r1) by lia. unfold Py.ret at 1.
  replace ((status_code r1 =? 302) || (status_code r1 =? 307)) with true
    by (destruct Hs as [-> | ->]; reflexivity).
  cbv zeta. rewrite (truthy_location _ _ Hloc Hne). cbn [negb].
  rewrite Hloc. change (default "" (Some loc)) with loc.
  step. unfold logger_info at 1, logger at 1. cbn [sent log].
  step. unfold session_get at 1. cbn [sent log]. rewrite Ht2.
  step. rewrite (not_http_error r2 Hs2). unfold Py.ret at 1.
  step. unfold logger_info, logger. cbn [sent log].
  unfold mret, M_ret, Py.ret.
  rewrite <- !app_assoc. reflexivity.
Qed.

(** Step through a redirect whose target is known, up to the second
    GET. *)
Lemma fetch_after_redirect (w : World) (r1 : Response) (loc : string) :
  transport (sent w)
    (export_request session base_url document_id workspace_id element_id)
  = Ok r1 ->
  status_code r1 = 302 \/ status_code r1 = 307 ->
  headers r1 !! "Location" = Some loc ->
  loc <> "" ->
  fetch_step_content transport document_id workspace_id element_id
                     session base_url w
  = try_except
      (step_response ← session_get transport session loc true;
       _ ← raise_for_status step_response;
       _ ← logger_info "STEP content fetched successfully.";
       mret (content step_response))
      is_RequestException
      (fun e =>
         _ ← logger_error ("Failed to fetch STEP content: " +:+ exn_msg e);
         raise (Exn RuntimeError "Failed to fetch STEP content." (Some e)))
      {| sent := sent w ++
            [export_request session base_url document_id workspace_id
                            element_id];
         log := log w ++ [(INFO, "Following redirect to: " +:+ loc)] |}.
Proof.
  intros Ht Hs Hloc Hne.
  first_get Ht. step.
  rewrite (not_http_error r1) by lia. unfold Py.ret at 1.
  replace ((status_code r1 =? 302) || (status_code r1 =? 307)) with true
    by (destruct Hs as [-> | ->]; reflexivity).
  cbv zeta. rewrite (truthy_location _ _ Hloc Hne). cbn [negb].
  rewrite Hloc. change (default "" (Some loc)) with loc.
  step. unfold logger_info at 1, logger at 1. cbn [sent log].
  unfold try_except. reflexivity.
Qed.

(** C1 (as amended). When the first GET is answered 302 with a non-empty
    [Location] header and the GET to that location is answered 200 with
    body B, [fetch_step_content] returns exactly B, after exactly those
    two requests. *)
Theorem fetch_step_content_follows_redirect
        (w : World) (r1 r2 : Response) (loc : string) :
  transport (sent w)
    (export_request session base_url document_id workspace_id element_id)
  = Ok r1 ->
  status_code r1 = 302 ->
  headers r1 !! "Location" = Some loc ->
  loc <> "" ->
  transport
    (sent w ++
       [export_request session base_url document_id workspace_id element_id])
    (get_request session loc true)
  = Ok r2 ->
  status_code r2 = 200 ->
  exists w',
    fetch_step_content transport document_id workspace_id element_id
                       session base_url w
    = (w', Ok (content r2)) /\
    sent w' = sent w ++
      [export_request session base_url document_id workspace_id element_id;
       get_request session loc true].
Proof.
  intros Ht Hs Hloc Hne Ht2 Hs2.
  eexists. split.
  - apply (fetch_redirect_body w r1 r2 loc); auto; lia.
  - reflexivity.
Qed.

(** C3. When the first GET is answered 302 or 307 without a [Location]
    header, [fetch_step_content] raises the "Redirect expected but
    'Location' header is missing." error and the first request stays the
    only one issued. *)
Theorem fetch_step_content_missing_location (w : World) (r1 : Response) :
  transport (sent w)
    (export_request session base_url document_id workspace_id element_id)
  = Ok r1 ->
  status_code r1 = 302 \/ status_code r1 = 307 ->
  headers r1 !! "Location" = None ->
  fetch_step_content transport document_id workspace_id element_id
                     session base_url w
  = ({| sent := sent w ++
            [export_request session base_url document_id workspace_id
                            element_id];
        log := log w |},
     Raise (Exn RuntimeError
                "Redirect expected but 'Location' header is missing." None)).
Proof.
  intros Ht Hs Hloc.
  first_get Ht. step.
  rewrite (not_http_error r1) by lia. unfold Py.ret at 1.
  replace ((status_code r1 =? 302) || (status_code r1 =? 307)) with true
    by (destruct Hs as [-> | ->]; reflexivity).
  cbv zeta. rewrite Hloc. reflexivity.
Qed.

(** C4. When the first GET is answered with a 4xx or 5xx status,
    [fetch_step_content] fails at once: the [HTTPError] of
    [raise_for_status] is wrapped in the "Failed to fetch STEP content."
    error and the first request stays the only one issued. *)
Theorem fetch_step_content_http_error (w : World) (r1 : Response) :
  transport (sent w)
    (export_request session base_url document_id workspace_id element_id)
  = Ok r1 ->
  400 <= status_code r1 < 600 ->
  exists m,
    fetch_step_content transport document_id workspace_id element_id
                       session base_url w
    = ({| sent := sent w ++
              [export_request session base_url document_id workspace_id
                              element_id];
          log := log w ++ [(ERROR, "Failed to fetch STEP content: " +:+ m)] |},
       Raise (Exn RuntimeError "Failed to fetch STEP content."
                  (Some (Exn HTTPError m None)))).
Proof.
  intros Ht Hs.
  destruct (http_error r1 Hs) as [m Hm]. exists m.
  first_get Ht. step. rewrite Hm. reflexivity.
Qed.

(** C7. When the first GET is answered with a status that is neither an
    HTTP error nor 302/307 (a plain 200 with a body, say), the body is
    not returned: [fetch_step_content] raises the "Unexpected response
    status code" error, after that one request. *)
Theorem fetch_step_content_direct_success_raises (w : World) (r1 : Response) :
  transport (sent w)
    (export_request session base_url document_id workspace_id element_id)
  = Ok r1 ->
  ¬ (400 <= status_code r1 < 600) ->
  status_code r1 <> 302 ->
  status_code r1 <> 307 ->
  fetch_step_content transport document_id workspace_id element_id
                     session base_url w
  = ({| sent := sent w ++
            [export_request session base_url document_id workspace_id
                            element_id];
        log := log w |},
     Raise (Exn RuntimeError
                ("Unexpected response status code: "
                 +:+ pretty (status_code r1)) None)).
Proof.
  intros Ht Hs H302 H307.
  first_get Ht. step.
  rewrite (not_http_error r1 Hs). unfold Py.ret at 1.
  replace ((status_code r1 =? 302) || (status_code r1 =? 307)) with false
    by (symmetry; apply orb_false_intro; lia).
  reflexivity.
Qed.

Variable default_headers : list (string * string).
Variable STEP_HEADERS : list (string * string).
Variables access_key secret_key : string.

(** [export_step] adds nothing to the outcome of the fetch it runs on
    the session built from the credentials. *)
Lemma export_step_is_fetch (w : World) :
  (export_step transport default_headers base_url STEP_HEADERS
               document_id workspace_id element_id access_key secret_key w).2
  = (fetch_step_content transport document_id workspace_id element_id
       (create_session default_headers access_key secret_key STEP_HEADERS)
       base_url
       {| sent := sent w;
          log := log w ++
            [(DEBUG, "Creating session for part studio export.")] |}).2.
Proof.
  unfold export_step. step. unfold logger_debug, logger. cbv zeta.
  step. destruct (fetch_step_content _ _ _ _ _ _ _) as [w1 [b|e]]; reflexivity.
Qed.

(** *** The outcome of a fetch, failure by failure *)

Lemma fails_with (w : World) (err : exn) :
  (exists w',
      fetch_step_content transport document_id workspace_id element_id
                         session base_url w
      = (w', Raise err)) <->
  (fetch_step_content transport document_id workspace_id element_id
                      session base_url w).2
  = Raise err.
Proof.
  split.
  - intros [w' ->]. reflexivity.
  - destruct (fetch_step_content _ _ _ _ _ _ w) as [w' r]. simpl.
    intros ->. by exists w'.
Qed.

Lemma outcome_first_get_raises (w : World) (e : exn) :
  transport (sent w)
    (export_request session base_url document_id workspace_id element_id)
  = Raise e ->
  (fetch_step_content transport document_id workspace_id element_id
                      session base_url w).2
  = if is_RequestException e
    then Raise (Exn RuntimeError "Failed to fetch STEP content." (Some e))
    else Raise e.
Proof.
  intros Ht. first_get Ht. by destruct (is_RequestException e).
Qed.

Lemma outcome_first_http_error (w : World) (r1 : Response) (h : exn) :
  transport (sent w)
    (export_request session base_url document_id workspace_id element_id)
  = Ok r1 ->
  raise_for_status r1 = Py.raise h ->
  is_RequestException h = true ->
  (fetch_step_content transport document_id workspace_id element_id
                      session base_url w).2
  = Raise (Exn RuntimeError "Failed to fetch STEP content." (Some h)).
Proof.
  intros Ht Hr Hh. first_get Ht. step. rewrite Hr.
  unfold Py.raise at 1. rewrite Hh. reflexivity.
Qed.

Lemma outcome_unexpected_status (w : World) (r1 : Response) :
  transport (sent w)
    (export_request session base_url document_id workspace_id element_id)
  = Ok r1 ->
  ¬ (400 <= status_code r1 < 600) ->
  status_code r1 <> 302 -> status_code r1 <> 307 ->
  (fetch_step_content transport document_id workspace_id element_id
                      session base_url w).2
  = Raise (Exn RuntimeError
               ("Unexpected response status code: "
                +:+ pretty (status_code r1)) None).
Proof.
  intros Ht Hs H302 H307.
  first_get Ht. step.
  rewrite (not_http_error r1 Hs). unfold Py.ret at 1.
  replace ((status_code r1 =? 302) || (status_code r1 =? 307)) with false
    by (symmetry; apply orb_false_intro; lia).
  reflexivity.
Qed.

Lemma outcome_missing_target (w : World) (r1 : Response) :
  transport (sent w)
    (export_request session base_url document_id workspace_id element_id)
  = Ok r1 ->
  status_code r1 = 302 \/ status_code r1 = 307 ->
  headers r1 !! "Location" = None \/ headers r1 !! "Location" = Some "" ->
  (fetch_step_content transport document_id workspace_id element_id
                      session base_url w).2
  = Raise (Exn RuntimeError
               "Redirect expected but 'Location' header is missing." None).
Proof.
  intros Ht Hs Hloc.
  first_get Ht. step.
  rewrite (not_http_error r1) by lia. unfold Py.ret at 1.
  replace ((status_code r1 =? 302) || (status_code r1 =? 307)) with true
    by (destruct Hs as [-> | ->]; reflexivity).
  cbv zeta. by destruct Hloc as [-> | ->].
Qed.

Lemma outcome_follow_up_raises (w : World) (r1 : Response) (loc : string)
      (e : exn) :
  transport (sent w)
    (export_request session base_url document_id workspace_id element_id)
  = Ok r1 ->
  status_code r1 = 302 \/ status_code r1 = 307 ->
  headers r1 !! "Location" = Some loc -> loc <> "" ->
  transport
    (sent w ++
       [export_request session base_url document_id workspace_id element_id])
    (get_request session loc true)
  = Raise e ->
  (fetch_step_content transport document_id workspace_id element_id
                      session base_url w).2
  = if is_RequestException e
    then Raise (Exn RuntimeError "Failed to fetch STEP content." (Some e))
    else Raise e.
Proof.
  intros Ht Hs Hloc Hne Ht2.
  rewrite (fetch_after_redirect w r1 loc Ht Hs Hloc Hne).
  unfold try_except. step. unfold session_get. cbn [sent log]. rewrite Ht2.
  by destruct (is_RequestException e).
Qed.

Lemma outcome_follow_up_http_error (w : World) (r1 r2 : Response)
      (loc : string) (h : exn) :
  transport (sent w)
    (export_request session base_url document_id workspace_id element_id)
  = Ok r1 ->
  status_code r1 = 302 \/ status_code r1 = 307 ->
  headers r1 !! "Location" = Some loc -> loc <> "" ->
  transport
    (sent w ++
       [export_request session base_url document_id workspace_id element_id])
    (get_request session loc true)
  = Ok r2 ->
  raise_for_status r2 = Py.raise h ->
  is_RequestException h = true ->
  (fetch_step_content transport document_id workspace_id element_id
                      session base_url w).2
  = Raise (Exn RuntimeError "Failed to fetch STEP content." (Some h)).
Proof.
  intros Ht Hs Hloc Hne Ht2 Hr Hh.
  rewrite (fetch_after_redirect w r1 loc Ht Hs Hloc Hne).
  unfold try_except. step. unfold session_get. cbn [sent log]. rewrite Ht2.
  step. rewrite Hr. unfold Py.raise at 1. rewrite Hh. reflexivity.
Qed.

(** C2 (as amended). Over a transport that raises nothing but
    [RequestException]s, [fetch_step_content] fails with [err] exactly
    in these cases, and each failure is a [RuntimeError]:
    - a GET raises [e] (network failure, first or follow-up GET): [err]
      is "Failed to fetch STEP content." with cause [e];
    - a GET is answered 4xx/5xx (first or follow-up): [err] is "Failed to
      fetch STEP content." with, as its cause, the [HTTPError] that
      [raise_for_status] raises for that answer;
    - the first answer is 302/307 with a missing or empty [Location]:
      [err] is the "Redirect expected" error, without cause;
    - the first answer has any other non-error status: [err] is the
      "Unexpected response status code" error for that status, without
      cause.
    [export_step] adds no wrapper: its outcome is the outcome of the
    fetch it runs on the session it creates. *)
Theorem fetch_step_content_failure_kinds (w : World) (err : exn) :
  (forall history rq e,
      transport history rq = Raise e -> is_RequestException e = true) ->
  ((exists w',
       fetch_step_content transport document_id workspace_id element_id
                          session base_url w
       = (w', Raise err)) <->
   (exists e,
       transport (sent w)
         (export_request session base_url document_id workspace_id
                         element_id)
       = Raise e /\
       err = Exn RuntimeError "Failed to fetch STEP content." (Some e)) \/
   (exists r1,
       transport (sent w)
         (export_request session base_url document_id workspace_id
                         element_id)
       = Ok r1 /\
       ((exists h,
            400 <= status_code r1 < 600 /\
            raise_for_status r1 = Py.raise h /\
            exn_cls h = HTTPError /\
            err = Exn RuntimeError "Failed to fetch STEP content." (Some h))
        \/
        (¬ (400 <= status_code r1 < 600) /\
         status_code r1 <> 302 /\ status_code r1 <> 307 /\
         err = Exn RuntimeError
                   ("Unexpected response status code: "
                    +:+ pretty (status_code r1)) None)
        \/
        ((status_code r1 = 302 \/ status_code r1 = 307) /\
         (headers r1 !! "Location" = None \/
          headers r1 !! "Location" = Some "") /\
         err = Exn RuntimeError
                   "Redirect expected but 'Location' header is missing."
                   None)
        \/
        (exists loc,
            (status_code r1 = 302 \/ status_code r1 = 307) /\
            headers r1 !! "Location" = Some loc /\ loc <> "" /\
            ((exists e,
                 transport
                   (sent w ++
                      [export_request session base_url document_id
                                      workspace_id element_id])
                   (get_request session loc true)
                 = Raise e /\
                 err = Exn RuntimeError "Failed to fetch STEP content."
                           (Some e))
             \/
             (exists r2 h,
                 transport
                   (sent w ++
                      [export_request session base_url document_id
                                      workspace_id element_id])
                   (get_request session loc true)
                 = Ok r2 /\
                 400 <= status_code r2 < 600 /\
                 raise_for_status r2 = Py.raise h /\
                 exn_cls h = HTTPError /\
                 err = Exn RuntimeError "Failed to fetch STEP content."
                           (Some h))))))) /\
  (forall w',
      fetch_step_content transport document_id workspace_id element_id
                         session base_url w
      = (w', Raise err) ->
      exn_cls err = RuntimeError) /\
  (export_step transport default_headers base_url STEP_HEADERS
               document_id workspace_id element_id access_key secret_key w).2
  = (fetch_step_content transport document_id workspace_id element_id
       (create_session default_headers access_key secret_key STEP_HEADERS)
       base_url
       {| sent := sent w;
          log := log w ++
            [(DEBUG, "Creating session for part studio export.")] |}).2.
Proof.
  intros Hreq.
  assert (Hhttp : forall r, 400 <= status_code r < 600 ->
            exists h, raise_for_status r = Py.raise h /\
                      exn_cls h = HTTPError /\
                      is_RequestException h = true).
  { intros r Hr. destruct (http_error r Hr) as [m Hm]. eauto. }
  assert (Hkinds :
    (exists w',
       fetch_step_content transport document_id workspace_id element_id
                          session base_url w
       = (w', Raise err)) ->
    (exists e,
       transport (sent w)
         (export_request session base_url document_id workspace_id
                         element_id)
       = Raise e /\
       err = Exn RuntimeError "Failed to fetch STEP content." (Some e)) \/
   (exists r1,
       transport (sent w)
         (export_request session base_url document_id workspace_id
                         element_id)
       = Ok r1 /\
       ((exists h,
            400 <= status_code r1 < 600 /\
            raise_for_status r1 = Py.raise h /\
            exn_cls h = HTTPError /\
            err = Exn RuntimeError "Failed to fetch STEP content." (Some h))
        \/
        (¬ (400 <= status_code r1 < 600) /\
         status_code r1 <> 302 /\ status_code r1 <> 307 /\
         err = Exn RuntimeError
                   ("Unexpected response status code: "
                    +:+ pretty (status_code r1)) None)
        \/
        ((status_code r1 = 302 \/ status_code r1 = 307) /\
         (headers r1 !! "Location" = None \/
          headers r1 !! "Location" = Some "") /\
         err = Exn RuntimeError
                   "Redirect expected but 'Location' header is missing."
                   None)
        \/
        (exists loc,
            (status_code r1 = 302 \/ status_code r1 = 307) /\
            headers r1 !! "Location" = Some loc /\ loc <> "" /\
            ((exists e,
                 transport
                   (sent w ++
                      [export_request session base_url document_id
                                      workspace_id element_id])
                   (get_request session loc true)
                 = Raise e /\
                 err = Exn RuntimeError "Failed to fetch STEP content."
                           (Some e))
             \/
             (exists r2 h,
                 transport
                   (sent w ++
                      [export_request session base_url document_id
                                      workspace_id element_id])
                   (get_request session loc true)
                 = Ok r2 /\
                 400 <= status_code r2 < 600 /\
                 raise_for_status r2 = Py.raise h /\
                 exn_cls h = HTTPError /\
                 err = Exn RuntimeError "Failed to fetch STEP content."
                           (Some h))))))).
  { rewrite fails_with. intros Hfail.
    destruct (transport (sent w)
                (export_request session base_url document_id workspace_id
                                element_id)) as [r1|e] eqn:Ht.
    2: { rewrite (outcome_first_get_raises w e Ht), (Hreq _ _ _ Ht) in Hfail.
         injection Hfail as <-. left. eauto. }
    right. exists r1. split; [done|].
    destruct (decide (400 <= status_code r1 < 600)) as [Herr|Hok].
    { destruct (Hhttp r1 Herr) as (h & Hr & Hc & Hh).
      rewrite (outcome_first_http_error w r1 h Ht Hr Hh) in Hfail.
      injection Hfail as <-. left. exists h. eauto. }
    destruct (decide (status_code r1 = 302 \/ status_code r1 = 307))
      as [Hs|Hs].
    2: { rewrite (outcome_unexpected_status w r1 Ht Hok) in Hfail by tauto.
         injection Hfail as <-. right. left. repeat split; (done || tauto). }
    destruct (headers r1 !! "Location") as [loc|] eqn:Hloc.
    2: { rewrite (outcome_missing_target w r1 Ht Hs) in Hfail
           by (left; exact Hloc).
         injection Hfail as <-. right. right. left. eauto. }
    destruct (decide (loc = "")) as [->|Hne].
    { rewrite (outcome_missing_target w r1 Ht Hs) in Hfail
        by (right; exact Hloc).
      injection Hfail as <-. right. right. left. eauto. }
    right. right. right. exists loc. do 3 (split; [done|]).
    destruct (transport
                (sent w ++
                   [export_request session base_url document_id
                                   workspace_id element_id])
                (get_request session loc true)) as [r2|e] eqn:Ht2.
    2: { rewrite (outcome_follow_up_raises w r1 loc e Ht Hs Hloc Hne Ht2),
           (Hreq _ _ _ Ht2) in Hfail.
         injection Hfail as <-. left. eauto. }
    destruct (decide (400 <= status_code r2 < 600)) as [Herr2|Hok2].
    - destruct (Hhttp r2 Herr2) as (h & Hr & Hc & Hh).
      rewrite (outcome_follow_up_http_error w r1 r2 loc h
                 Ht Hs Hloc Hne Ht2 Hr Hh) in Hfail.
      injection Hfail as <-. right. exists r2, h. eauto 10.
    - rewrite (fetch_redirect_body w r1 r2 loc Ht Hs Hloc Hne Ht2 Hok2)
        in Hfail.
      discriminate. }
  split; [split; [exact Hkinds|] | split].
  - rewrite fails_with.
    intros [(e & Ht & ->)
           | (r1 & Ht & [(h & Herr & Hr & Hc & ->)
                        | [(Hok & H302 & H307 & ->)
                          | [(Hs & Hloc & ->)
                            | (loc & Hs & Hloc & Hne
                               & [(e & Ht2 & ->)
                                 | (r2 & h & Ht2 & Herr2 & Hr & Hc & ->)])]]])].
    + by rewrite (outcome_first_get_raises w e Ht), (Hreq _ _ _ Ht).
    + apply (outcome_first_http_error w r1 h Ht Hr).
      unfold is_RequestException. by rewrite Hc.
    + by apply outcome_unexpected_status.
    + by apply (outcome_missing_target w r1).
    + by rewrite (outcome_follow_up_raises w r1 loc e Ht Hs Hloc Hne Ht2),
        (Hreq _ _ _ Ht2).
    + apply (outcome_follow_up_http_error w r1 r2 loc h Ht Hs Hloc Hne Ht2 Hr).
      unfold is_RequestException. by rewrite Hc.
  - intros w' Hrun.
    destruct (Hkinds (ex_intro _ w' Hrun))
      as [(e & _ & ->)
         | (r1 & _ & [(h & _ & _ & _ & ->)
                     | [(_ & _ & _ & ->)
                       | [(_ & _ & ->)
                         | (loc & _ & _ & _
                            & [(e & _ & ->)
                              | (r2 & h & _ & _ & _ & _ & ->)])]]])];
      reflexivity.
  - apply export_step_is_fetch.
Qed.

End Fetch.

(** *** The statements on mocked transports *)

Lemma scripted_raises_request_exceptions (script : list (result Response)) :
  Mock.requests_script script ->
  forall history rq e,
    Mock.scripted script history rq = Raise e -> is_RequestException e = true.
Proof.
  intros Hs history rq e. unfold Mock.scripted.
  destruct (script !! length history) as [r|] eqn:Hl; simpl.
  - intros ->. unfold Mock.requests_script in Hs.
    rewrite Forall_lookup in Hs. apply (Hs _ _ Hl).
  - intros [= <-]. reflexivity.
Qed.

Lemma fetch_step_content_follows_redirect_witness :
  exists w',
    fetch_step_content
      (Mock.scripted [Ok Mock.found_with_location; Ok Mock.ok_with_payload])
      "d" "w" "e" Mock.session Mock.base Mock.idle
    = (w', Ok Mock.payload) /\
    sent w' = [Mock.first_request;
               get_request Mock.session "http://x/payload" true].
Proof.
  apply (fetch_step_content_follows_redirect
           (Mock.scripted
              [Ok Mock.found_with_location; Ok Mock.ok_with_payload])
           "d" "w" "e" Mock.base Mock.session Mock.idle
           Mock.found_with_location Mock.ok_with_payload "http://x/payload");
    [reflexivity | reflexivity | reflexivity | discriminate
     | reflexivity | reflexivity].
Defined.

(** C1, as stated, fails on a redirect whose [Location] header is
    present but empty: the first GET is answered 302 with that header,
    the GET to that location is answered 200 with a body, and the fetch
    raises instead of returning the body. *)
Lemma empty_location_is_refused :
  Mock.scripted [Ok Mock.found_with_empty_location; Ok Mock.ok_with_payload]
                (sent Mock.idle) Mock.first_request
  = Ok Mock.found_with_empty_location /\
  status_code Mock.found_with_empty_location = 302 /\
  headers Mock.found_with_empty_location !! "Location" = Some "" /\
  Mock.scripted [Ok Mock.found_with_empty_location; Ok Mock.ok_with_payload]
                (sent Mock.idle ++ [Mock.first_request])
                (get_request Mock.session "" true)
  = Ok Mock.ok_with_payload /\
  status_code Mock.ok_with_payload = 200 /\
  content Mock.ok_with_payload = Mock.payload /\
  fetch_step_content
    (Mock.scripted
       [Ok Mock.found_with_empty_location; Ok Mock.ok_with_payload])
    "d" "w" "e" Mock.session Mock.base Mock.idle
  = ({| sent := [Mock.first_request]; log := [] |},
     Raise (Exn RuntimeError
                "Redirect expected but 'Location' header is missing." None)).
Proof.
  repeat split.
Qed.

Lemma fetch_step_content_missing_location_witness :
  fetch_step_content (Mock.scripted [Ok Mock.found_without_location])
                     "d" "w" "e" Mock.session Mock.base Mock.idle
  = ({| sent := [Mock.first_request]; log := [] |},
     Raise (Exn RuntimeError
                "Redirect expected but 'Location' header is missing." None)).
Proof.
  apply (fetch_step_content_missing_location
           (Mock.scripted [Ok Mock.found_without_location])
           "d" "w" "e" Mock.base Mock.session Mock.idle
           Mock.found_without_location);
    [reflexivity | left; reflexivity | reflexivity].
Defined.

Lemma fetch_step_content_http_error_witness :
  exists m,
    fetch_step_content (Mock.scripted [Ok Mock.not_found])
                       "d" "w" "e" Mock.session Mock.base Mock.idle
    = ({| sent := [Mock.first_request];
          log := [(ERROR, "Failed to fetch STEP content: " +:+ m)] |},
       Raise (Exn RuntimeError "Failed to fetch STEP content."
                  (Some (Exn HTTPError m None)))).
Proof.
  apply (fetch_step_content_http_error
           (Mock.scripted [Ok Mock.not_found])
           "d" "w" "e" Mock.base Mock.session Mock.idle Mock.not_found);
    [reflexivity | simpl; lia].
Defined.

Lemma fetch_step_content_direct_success_raises_witness :
  fetch_step_content (Mock.scripted [Ok Mock.ok_with_payload])
                     "d" "w" "e" Mock.session Mock.base Mock.idle
  = ({| sent := [Mock.first_request]; log := [] |},
     Raise (Exn RuntimeError "Unexpected response status code: 200" None)).
Proof.
  apply (fetch_step_content_direct_success_raises
           (Mock.scripted [Ok Mock.ok_with_payload])
           "d" "w" "e" Mock.base Mock.session Mock.idle Mock.ok_with_payload);
    [reflexivity | simpl; lia | discriminate | discriminate].
Defined.

(** C2, as stated, fails on a redirect without target: the transport
    raises nothing but [RequestException]s, the fetch fails, and the
    error it raises has no cause. *)
Lemma missing_location_error_has_no_cause :
  (forall history rq e,
      Mock.scripted [Ok Mock.found_without_location] history rq = Raise e ->
      is_RequestException e = true) /\
  (fetch_step_content (Mock.scripted [Ok Mock.found_without_location])
                      "d" "w" "e" Mock.session Mock.base Mock.idle).2
  = Raise (Exn RuntimeError
               "Redirect expected but 'Location' header is missing." None) /\
  exn_cause (Exn RuntimeError
                 "Redirect expected but 'Location' header is missing." None)
  = None.
Proof.
  split; [|split; reflexivity].
  apply scripted_raises_request_exceptions.
  repeat constructor.
Qed.

Lemma fetch_step_content_failure_kinds_witness :
  (exists w',
      fetch_step_content (Mock.scripted [Ok Mock.not_found])
                         "d" "w" "e" Mock.session Mock.base Mock.idle
      = (w', Raise (Exn RuntimeError "Failed to fetch STEP content."
                        (Some (Exn HTTPError
                                   "404 Client Error: Not Found for url: http://x/export"
                                   None))))) /\
  (export_step (Mock.scripted [Ok Mock.not_found]) [] Mock.base
               [("Accept", "application/json")]
               "d" "w" "e" "access" "secret" Mock.idle).2
  = (fetch_step_content (Mock.scripted [Ok Mock.not_found]) "d" "w" "e"
       (create_session [] "access" "secret" [("Accept", "application/json")])
       Mock.base
       {| sent := [];
          log := [(DEBUG, "Creating session for part studio export.")] |}).2.
Proof.
  pose proof (fetch_step_content_failure_kinds
                (Mock.scripted [Ok Mock.not_found])
                "d" "w" "e" Mock.base Mock.session
                [] [("Accept", "application/json")] "access" "secret"
                Mock.idle
                (Exn RuntimeError "Failed to fetch STEP content."
                     (Some (Exn HTTPError
                                "404 Client Error: Not Found for url: http://x/export"
                                None))))
    as H.
  destruct H as [[_ Hkind] [_ Hexport]].
  - apply scripted_raises_request_exceptions. repeat constructor.
  - split; [|exact Hexport].
    apply Hkind. right. exists Mock.not_found. split; [reflexivity|].
    left. eexists. split; [simpl; lia|]. split; [reflexivity|].
    split; reflexivity.
Defined.

End ExporterSpec.

(** ** The mesh conversion pipeline *)

Module ConverterSpec.

Import Converter.


Lemma or_empty_dict_default (opts : option (gmap string PyVal)) :
  or_empty_dict opts = default ∅ opts.
Proof.
  destruct opts as [d|]; simpl; [|reflexivity].
  case_decide; congruence.
Qed.

Section Pipeline.

Context {L : Libraries}.

(** *** What each stage does to the world *)

Lemma create_2d_mesh_touches stl_data w :
  touches Parse w (create_2d_mesh stl_data w).1.
Proof.
  unfold create_2d_mesh. step. unfold call.
  exists [CallTrimeshLoad stl_data "stl"].
  destruct (trimesh_load stl_data "stl"); simpl; repeat split; by repeat constructor.
Qed.

Lemma clean_mesh_touches vertices faces w :
  touches Repair w (clean_mesh vertices faces w).1.
Proof.
  unfold clean_mesh. step. unfold call at 1.
  destruct (MeshFix_new vertices faces) as [mf|e]; simpl.
  - step. unfold call.
    eexists [CallMeshFix vertices faces; CallRepair mf _].
    destruct (MeshFix_repair mf _); simpl; rewrite <- app_assoc;
      repeat split; by repeat constructor.
  - exists [CallMeshFix vertices faces]. repeat split; by repeat constructor.
Qed.

Lemma tetrahedralize_mesh_touches vertices faces opts w :
  touches Tetrahedralize w (tetrahedralize_mesh vertices faces opts w).1.
Proof.
  unfold tetrahedralize_mesh. step. unfold call at 1.
  destruct (TetGen_new vertices faces) as [tg|e]; simpl.
  - step. unfold call.
    eexists [CallTetGen vertices faces; CallTetrahedralize tg _].
    destruct (TetGen_tetrahedralize tg _); simpl; rewrite <- app_assoc;
      repeat split; by repeat constructor.
  - exists [CallTetGen vertices faces]. repeat split; by repeat constructor.
Qed.

Lemma save_mesh_to_vtk_calls nodes cells path w :
  calls (save_mesh_to_vtk nodes cells path w).1
  = calls w ++ [CallMeshioWrite path
                  {| meshio.points := nodes;
                     meshio.cells := [("tetra", cells)] |}].
Proof.
  unfold save_mesh_to_vtk, call_fs.
  destruct (meshio_write _ _ _) as [fs' r]. reflexivity.
Qed.

Lemma touches_since s w w' :
  touches s w w' ->
  Forall (fun c => stage_of c = s) (calls_since w w') /\ fs w' = fs w.
Proof.
  intros (cs & Hc & Hs & Hf). unfold calls_since.
  rewrite Hc, drop_app_length. by split.
Qed.

Lemma touches_then s1 s2 w w1 w2 :
  touches s1 w w1 -> touches s2 w1 w2 ->
  calls_since w w2 = calls_since w w1 ++ calls_since w1 w2 /\
  fs w2 = fs w.
Proof.
  intros (cs1 & Hc1 & _ & Hf1) (cs2 & Hc2 & _ & Hf2). unfold calls_since.
  rewrite Hc2, (drop_app_length (calls w1)), Hc1, <- app_assoc.
  rewrite !drop_app_length. split; congruence.
Qed.

(** C5. [stl_to_vtk] is the sequential composition of the four stages:
    [create_2d_mesh], then [clean_mesh] on its result, then
    [tetrahedralize_mesh] on that result with the given options, then
    [save_mesh_to_vtk] on the resulting nodes and elements at the given
    path. *)
Theorem stl_to_vtk_is_pipeline (stl_data : bytes) (output_path : string)
        (tetgen_options : option (gmap string PyVal)) (w : World) :
  stl_to_vtk stl_data output_path tetgen_options w
  = pipeline output_path tetgen_options stl_data w.
Proof.
  unfold stl_to_vtk, pipeline, then_stage, mbind, M_bind, Py.bind.
  destruct (create_2d_mesh stl_data w) as [w1 [[vs fcs]|e]]; [|reflexivity].
  cbn [fst snd].
  destruct (clean_mesh vs fcs w1) as [w2 [[cvs cfs]|e]]; [|reflexivity].
  cbn [fst snd].
  destruct (tetrahedralize_mesh cvs cfs tetgen_options w2)
    as [w3 [[nds cls]|e]]; reflexivity.
Qed.

(** C6. When a stage of [stl_to_vtk] raises, the pipeline raises that
    very exception and stops in the world that stage left: no call of a
    later stage is made, and when the stage comes before serialization
    the file system is untouched. *)
Theorem stl_to_vtk_propagates_failure
        (stl_data : bytes) (output_path : string)
        (tetgen_options : option (gmap string PyVal))
        (w w' : World) (s : Stage) (e : exn) :
  stage_fails stl_data output_path tetgen_options w s e w' ->
  stl_to_vtk stl_data output_path tetgen_options w = (w', Raise e) /\
  Forall (fun c => (stage_index (stage_of c) <= stage_index s)%nat)
         (calls_since w w') /\
  (s <> Serialize -> fs w' = fs w).
Proof.
  intros Hfail.
  destruct Hfail as [e w1 H1
                    | vs fcs e w1 w2 H1 H2
                    | vs fcs cvs cfs e w1 w2 w3 H1 H2 H3
                    | vs fcs cvs cfs nds cls e w1 w2 w3 w4 H1 H2 H3 H4].
  - pose proof (create_2d_mesh_touches stl_data w) as T1. rewrite H1 in T1.
    destruct (touches_since _ _ _ T1) as [C1 F1].
    split; [|split].
    + unfold stl_to_vtk. step. by rewrite H1.
    + eapply Forall_impl; [exact C1|]. by intros c ->.
    + done.
  - pose proof (create_2d_mesh_touches stl_data w) as T1. rewrite H1 in T1.
    pose proof (clean_mesh_touches vs fcs w1) as T2. rewrite H2 in T2.
    destruct (touches_since _ _ _ T1) as [C1 _].
    destruct (touches_since _ _ _ T2) as [C2 _].
    destruct (touches_then _ _ _ _ _ T1 T2) as [C F].
    split; [|split].
    + unfold stl_to_vtk. step. rewrite H1. step. by rewrite H2.
    + simpl in C. rewrite C. apply Forall_app. split.
      * eapply Forall_impl; [exact C1|]. intros c ->. simpl. lia.
      * eapply Forall_impl; [exact C2|]. by intros c ->.
    + done.
  - pose proof (create_2d_mesh_touches stl_data w) as T1. rewrite H1 in T1.
    pose proof (clean_mesh_touches vs fcs w1) as T2. rewrite H2 in T2.
    pose proof (tetrahedralize_mesh_touches cvs cfs tetgen_options w2) as T3.
    rewrite H3 in T3. simpl in T1, T2, T3.
    destruct T1 as (c1 & Hc1 & Hs1 & Hf1).
    destruct T2 as (c2 & Hc2 & Hs2 & Hf2).
    destruct T3 as (c3 & Hc3 & Hs3 & Hf3).
    split; [|split].
    + unfold stl_to_vtk. step. rewrite H1. step. rewrite H2. step.
      by rewrite H3.
    + unfold calls_since.
      rewrite Hc3, Hc2, Hc1, <- !app_assoc, drop_app_length.
      rewrite !Forall_app. repeat split.
      * eapply Forall_impl; [exact Hs1|]. intros c ->. simpl. lia.
      * eapply Forall_impl; [exact Hs2|]. intros c ->. simpl. lia.
      * eapply Forall_impl; [exact Hs3|]. by intros c ->.
    + intros _. congruence.
  - split; [|split].
    + unfold stl_to_vtk. step. rewrite H1. step. rewrite H2. step.
      by rewrite H3.
    + apply Forall_forall. intros c _. destruct c; simpl; lia.
    + done.
Qed.

(** X12. Every exception [stl_to_vtk] raises is the exception of a stage. *)
Lemma stl_to_vtk_failure_is_a_stage_failure
      (stl_data : bytes) (output_path : string)
      (tetgen_options : option (gmap string PyVal))
      (w w' : World) (e : exn) :
  stl_to_vtk stl_data output_path tetgen_options w = (w', Raise e) ->
  exists s, stage_fails stl_data output_path tetgen_options w s e w'.
Proof.
  unfold stl_to_vtk, mbind, M_bind, Py.bind.
  destruct (create_2d_mesh stl_data w) as [w1 [[vs fcs]|e1]] eqn:H1.
  - destruct (clean_mesh vs fcs w1) as [w2 [[cvs cfs]|e2]] eqn:H2.
    + destruct (tetrahedralize_mesh cvs cfs tetgen_options w2)
        as [w3 [[nds cls]|e3]] eqn:H3.
      * intros H4. exists Serialize. by eapply serialize_fails.
      * intros [= <- <-]. exists Tetrahedralize.
        by eapply tetrahedralize_fails.
    + intros [= <- <-]. exists Repair. by eapply repair_fails.
  - intros [= <- <-]. exists Parse. by eapply parse_fails.
Qed.

(** C8. [clean_mesh] builds a [MeshFix] from the given vertices and
    faces and calls its [repair] with [joincomp] enabled and
    [remove_smallest_components] disabled; what it returns are the
    vertices and faces of the repaired object. *)
Theorem clean_mesh_repair_policy (vertices : ndarray float)
        (faces : ndarray Z) (w : World) (meshfix : pymeshfix.MeshFix) :
  MeshFix_new vertices faces = Ok meshfix ->
  clean_mesh vertices faces w
  = ({| calls := calls w ++
            [CallMeshFix vertices faces;
             CallRepair meshfix
                        {| verbose := true; joincomp := true;
                           remove_smallest_components := false |}];
        fs := fs w |},
     match MeshFix_repair meshfix
                          {| verbose := true; joincomp := true;
                             remove_smallest_components := false |} with
     | Ok repaired => Ok (pymeshfix.v repaired, pymeshfix.f repaired)
     | Raise e => Raise e
     end).
Proof.
  intros Hnew.
  unfold clean_mesh. step. unfold call at 1. rewrite Hnew.
  cbv zeta. step. unfold call. cbn [calls fs].
  rewrite <- app_assoc.
  destruct (MeshFix_repair meshfix _); reflexivity.
Qed.

(** C9. [tetrahedralize_mesh] hands the option mapping to
    [TetGen.tetrahedralize] as it received it, and an empty mapping when
    none was given; what it returns are the nodes and elements the
    routine left on the object. *)
Theorem tetrahedralize_mesh_forwards_options (vertices : ndarray float)
        (faces : ndarray Z) (tetgen_options : option (gmap string PyVal))
        (w : World) (tgen : tetgen.TetGen) :
  TetGen_new vertices faces = Ok tgen ->
  tetrahedralize_mesh vertices faces tetgen_options w
  = ({| calls := calls w ++
            [CallTetGen vertices faces;
             CallTetrahedralize tgen (default ∅ tetgen_options)];
        fs := fs w |},
     match TetGen_tetrahedralize tgen (default ∅ tetgen_options) with
     | Ok meshed => Ok (tetgen.node meshed, tetgen.elem meshed)
     | Raise e => Raise e
     end).
Proof.
  intros Hnew.
  unfold tetrahedralize_mesh. step. unfold call at 1. rewrite Hnew.
  cbv zeta. rewrite or_empty_dict_default.
  step. unfold call. cbn [calls fs].
  rewrite <- app_assoc.
  destruct (TetGen_tetrahedralize tgen _); reflexivity.
Qed.

(** C10. [save_mesh_to_vtk] makes one call, [meshio.write] at the given
    path, with a mesh whose points are the given nodes and whose only
    cell block is the given cell array under the "tetra" marker; the
    outcome and the file system are those of that call. *)
Theorem save_mesh_to_vtk_writes_tetra (nodes : ndarray float)
        (cells : ndarray Z) (path : string) (w : World) :
  calls (save_mesh_to_vtk nodes cells path w).1
  = calls w ++
      [CallMeshioWrite path
         {| meshio.points := nodes; meshio.cells := [("tetra", cells)] |}] /\
  (fs (save_mesh_to_vtk nodes cells path w).1,
   (save_mesh_to_vtk nodes cells path w).2)
  = meshio_write path
      {| meshio.points := nodes; meshio.cells := [("tetra", cells)] |}
      (fs w).
Proof.
  split; [apply save_mesh_to_vtk_calls|].
  unfold save_mesh_to_vtk, call_fs.
  destruct (meshio_write _ _ _) as [fs' r]. reflexivity.
Qed.

End Pipeline.

(** *** The statements on mocked libraries *)

Lemma stl_to_vtk_propagates_failure_witness :
  stl_to_vtk (L := Mock.failing_tetgen) [] "data/out.vtk"
             (Some Mock.quality) Mock.blank
  = (Mock.stopped Mock.quality, Raise Mock.tetgen_error) /\
  Forall (fun c => (stage_index (stage_of c) <= stage_index Tetrahedralize)%nat)
         (calls_since Mock.blank (Mock.stopped Mock.quality)) /\
  (Tetrahedralize <> Serialize ->
   fs (Mock.stopped Mock.quality) = fs Mock.blank).
Proof.
  apply (stl_to_vtk_propagates_failure (L := Mock.failing_tetgen)
           [] "data/out.vtk" (Some Mock.quality) Mock.blank
           (Mock.stopped Mock.quality) Tetrahedralize Mock.tetgen_error).
  eapply (tetrahedralize_fails (L := Mock.failing_tetgen));
    vm_compute; reflexivity.
Defined.

Lemma clean_mesh_repair_policy_witness :
  clean_mesh (L := Mock.working) (trimesh.vertices Mock.surface)
             (trimesh.faces Mock.surface) Mock.blank
  = ({| calls :=
          [CallMeshFix (trimesh.vertices Mock.surface)
                       (trimesh.faces Mock.surface);
           CallRepair {| pymeshfix.v := trimesh.vertices Mock.surface;
                         pymeshfix.f := trimesh.faces Mock.surface |}
                      {| verbose := true; joincomp := true;
                         remove_smallest_components := false |}];
        fs := ∅ |},
     Ok (trimesh.vertices Mock.surface, trimesh.faces Mock.surface)).
Proof.
  apply (clean_mesh_repair_policy (L := Mock.working)
           (trimesh.vertices Mock.surface) (trimesh.faces Mock.surface)
           Mock.blank
           {| pymeshfix.v := trimesh.vertices Mock.surface;
              pymeshfix.f := trimesh.faces Mock.surface |}).
  reflexivity.
Defined.

Lemma tetrahedralize_mesh_forwards_options_witness :
  tetrahedralize_mesh (L := Mock.working) (trimesh.vertices Mock.surface)
                      (trimesh.faces Mock.surface) (Some Mock.quality)
                      Mock.blank
  = ({| calls :=
          [CallTetGen (trimesh.vertices Mock.surface)
                      (trimesh.faces Mock.surface);
           CallTetrahedralize {| tetgen.node := []; tetgen.elem := [] |}
                              Mock.quality];
        fs := ∅ |},
     Ok (tetgen.node Mock.volume, tetgen.elem Mock.volume)).
Proof.
  apply (tetrahedralize_mesh_forwards_options (L := Mock.working)
           (trimesh.vertices Mock.surface) (trimesh.faces Mock.surface)
           (Some Mock.quality) Mock.blank
           {| tetgen.node := []; tetgen.elem := [] |}).
  reflexivity.
Defined.

End ConverterSpec.

(** ** Further behaviour of the export fetch *)

Module ExporterBehaviour.

Import Exporter Trace ExporterSpec.

Section Fetch.

Variable transport : list Request -> Request -> result Response.
Variables document_id workspace_id element_id base_url : string.
Variable session : Session.

(** X1. A transport exception that is a [RequestException] is logged and
    wrapped as the cause of the "Failed to fetch STEP content." error;
    nothing is retried. *)
Theorem fetch_step_content_network_failure (w : World) (e : exn) :
  transport (sent w)
    (export_request session base_url document_id workspace_id element_id)
  = Raise e ->
  is_RequestException e = true ->
  fetch_step_content transport document_id workspace_id element_id
                     session base_url w
  = ({| sent := sent w ++
            [export_request session base_url document_id workspace_id
                            element_id];
        log := log w ++
            [(ERROR, "Failed to fetch STEP content: " +:+ exn_msg e)] |},
     Raise (Exn RuntimeError "Failed to fetch STEP content." (Some e))).
Proof.
  intros Ht He. first_get Ht. rewrite He. reflexivity.
Qed.

(** X2. An exception raised by [session.get] that is not a
    [RequestException] passes through [fetch_step_content] as it is,
    be it raised by the first GET or by the follow-up GET: it is neither
    wrapped nor logged as an error. *)
Theorem fetch_step_content_foreign_exception (w : World) (e : exn) :
  is_RequestException e = false ->
  (transport (sent w)
     (export_request session base_url document_id workspace_id element_id)
   = Raise e ->
   fetch_step_content transport document_id workspace_id element_id
                      session base_url w
   = ({| sent := sent w ++
             [export_request session base_url document_id workspace_id
                             element_id];
         log := log w |},
      Raise e)) /\
  (forall r1 loc,
      transport (sent w)
        (export_request session base_url document_id workspace_id element_id)
      = Ok r1 ->
      status_code r1 = 302 \/ status_code r1 = 307 ->
      headers r1 !! "Location" = Some loc ->
      loc <> "" ->
      transport
        (sent w ++
           [export_request session base_url document_id workspace_id
                           element_id])
        (get_request session loc true)
      = Raise e ->
      fetch_step_content transport document_id workspace_id element_id
                         session base_url w
      = ({| sent := sent w ++
                [export_request session base_url document_id workspace_id
                                element_id;
                 get_request session loc true];
            log := log w ++ [(INFO, "Following redirect to: " +:+ loc)] |},
         Raise e)).
Proof.
  intros He. split.
  - intros Ht. first_get Ht. rewrite He. reflexivity.
  - intros r1 loc Ht Hs Hloc Hne Ht2.
    rewrite (fetch_after_redirect transport document_id workspace_id
               element_id base_url session w r1 loc Ht Hs Hloc Hne).
    unfold try_except. step. unfold session_get. cbn [sent log].
    rewrite Ht2, He, <- app_assoc. reflexivity.
Qed.

(** X3. A 4xx or 5xx answer to the follow-up GET fails the fetch like one to
    the first GET: its [HTTPError] is logged and wrapped, after exactly
    two requests. *)
Theorem fetch_step_content_follow_up_http_error
        (w : World) (r1 r2 : Response) (loc : string) :
  transport (sent w)
    (export_request session base_url document_id workspace_id element_id)
  = Ok r1 ->
  status_code r1 = 302 \/ status_code r1 = 307 ->
  headers r1 !! "Location" = Some loc ->
  loc <> "" ->
  transport
    (sent w ++
       [export_request session base_url document_id workspace_id element_id])
    (get_request session loc true)
  = Ok r2 ->
  400 <= status_code r2 < 600 ->
  exists m,
    fetch_step_content transport document_id workspace_id element_id
                       session base_url w
    = ({| sent := sent w ++
              [export_request session base_url document_id workspace_id
                              element_id;
               get_request session loc true];
          log := log w ++
              [(INFO, "Following redirect to: " +:+ loc);
               (ERROR, "Failed to fetch STEP content: " +:+ m)] |},
       Raise (Exn RuntimeError "Failed to fetch STEP content."
                  (Some (Exn HTTPError m None)))).
Proof.
  intros Ht Hs Hloc Hne Ht2 Hs2.
  destruct (http_error r2 Hs2) as [m Hm]. exists m.
  rewrite (fetch_after_redirect transport document_id workspace_id element_id
             base_url session w r1 loc Ht Hs Hloc Hne).
  unfold try_except. step. unfold session_get. cbn [sent log]. rewrite Ht2.
  step. rewrite Hm. finish. cbn [sent log exn_msg].
  rewrite <- !app_assoc. reflexivity.
Qed.

(** X4. A [RequestException] raised by the follow-up GET is logged and
    wrapped in the same way, after exactly two requests. *)
Theorem fetch_step_content_follow_up_network_failure
        (w : World) (r1 : Response) (loc : string) (e : exn) :
  transport (sent w)
    (export_request session base_url document_id workspace_id element_id)
  = Ok r1 ->
  status_code r1 = 302 \/ status_code r1 = 307 ->
  headers r1 !! "Location" = Some loc ->
  loc <> "" ->
  transport
    (sent w ++
       [export_request session base_url document_id workspace_id element_id])
    (get_request session loc true)
  = Raise e ->
  is_RequestException e = true ->
  fetch_step_content transport document_id workspace_id element_id
                     session base_url w
  = ({| sent := sent w ++
            [export_request session base_url document_id workspace_id
                            element_id;
             get_request session loc true];
        log := log w ++
            [(INFO, "Following redirect to: " +:+ loc);
             (ERROR, "Failed to fetch STEP content: " +:+ exn_msg e)] |},
     Raise (Exn RuntimeError "Failed to fetch STEP content." (Some e))).
Proof.
  intros Ht Hs Hloc Hne Ht2 He.
  rewrite (fetch_after_redirect transport document_id workspace_id element_id
             base_url session w r1 loc Ht Hs Hloc Hne).
  unfold try_except. step. unfold session_get. cbn [sent log]. rewrite Ht2.
  rewrite He. step. unfold logger_error, logger, Py.raise. cbn [sent log].
  rewrite <- !app_assoc. reflexivity.
Qed.

(** X5. A 307 is followed like a 302, and the body of the follow-up answer
    is returned for every status outside 400..599: that status is not
    looked at any further. *)
Theorem fetch_step_content_returns_follow_up_body
        (w : World) (r1 r2 : Response) (loc : string) :
  transport (sent w)
    (export_request session base_url document_id workspace_id element_id)
  = Ok r1 ->
  status_code r1 = 302 \/ status_code r1 = 307 ->
  headers r1 !! "Location" = Some loc ->
  loc <> "" ->
  transport
    (sent w ++
       [export_request session base_url document_id workspace_id element_id])
    (get_request session loc true)
  = Ok r2 ->
  ¬ (400 <= status_code r2 < 600) ->
  (fetch_step_content transport document_id workspace_id element_id
                      session base_url w).2
  = Ok (content r2) /\
  requests_since w
    (fetch_step_content transport document_id workspace_id element_id
                        session base_url w).1
  = [export_request session base_url document_id workspace_id element_id;
     get_request session loc true].
Proof.
  intros Ht Hs Hloc Hne Ht2 Hs2.
  rewrite (fetch_redirect_body transport document_id workspace_id element_id
             base_url session w r1 r2 loc Ht Hs Hloc Hne Ht2 Hs2).
  split; [reflexivity|].
  unfold requests_since. cbn [fst sent]. by rewrite drop_app_length.
Qed.

(** Every run of [fetch_step_content], by what it asked of the
    transport. *)
Lemma fetch_step_content_runs (w w' : World) (r : result bytes) :
  fetch_step_content transport document_id workspace_id element_id
                     session base_url w
  = (w', r) ->
  (sent w' = sent w ++
       [export_request session base_url document_id workspace_id element_id]
   /\ exists err, r = Raise err) \/
  (exists r1 loc,
      transport (sent w)
        (export_request session base_url document_id workspace_id element_id)
      = Ok r1 /\
      (status_code r1 = 302 \/ status_code r1 = 307) /\
      headers r1 !! "Location" = Some loc /\ loc <> "" /\
      sent w' = sent w ++
        [export_request session base_url document_id workspace_id element_id;
         get_request session loc true] /\
      ((exists err, r = Raise err) \/
       (exists r2,
           transport
             (sent w ++
                [export_request session base_url document_id workspace_id
                                element_id])
             (get_request session loc true)
           = Ok r2 /\
           ¬ (400 <= status_code r2 < 600) /\
           r = Ok (content r2) /\
           log w' = log w ++
             [(INFO, "Following redirect to: " +:+ loc);
              (INFO, "STEP content fetched successfully.")]))).
Proof.
  destruct (transport (sent w)
              (export_request session base_url document_id workspace_id
                              element_id)) as [r1|e] eqn:Ht.
  - destruct (decide (400 <= status_code r1 < 600)) as [Herr|Hok].
    { destruct (http_error r1 Herr) as [m Hm].
      first_get Ht. step. rewrite Hm. finish.
      intros [= <- <-]. left. cbn [sent]. eauto. }
    destruct (decide (status_code r1 = 302 \/ status_code r1 = 307))
      as [Hs|Hs].
    + destruct (headers r1 !! "Location") as [loc|] eqn:Hloc.
      * destruct (decide (loc = "")) as [->|Hne].
        { first_get Ht. step.
          rewrite (not_http_error r1 Hok). unfold Py.ret at 1.
          replace ((status_code r1 =? 302) || (status_code r1 =? 307))
            with true by (destruct Hs as [-> | ->]; reflexivity).
          cbv zeta. rewrite Hloc. cbn.
          intros [= <- <-]. left. cbn [sent]. eauto. }
        rewrite (fetch_after_redirect transport document_id workspace_id element_id
             base_url session w r1 loc Ht Hs Hloc Hne).
        unfold try_except. step. unfold session_get. cbn [sent log].
        destruct (transport
                    (sent w ++
                       [export_request session base_url document_id
                                       workspace_id element_id])
                    (get_request session loc true)) as [r2|e] eqn:Ht2.
        { step.
          destruct (decide (400 <= status_code r2 < 600)) as [Herr2|Hok2].
          - destruct (http_error r2 Herr2) as [m Hm]. rewrite Hm.
            finish. intros [= <- <-].
            right. exists r1, loc. do 4 (split; [done|]).
            cbn [sent]. rewrite <- !app_assoc.
            split; [reflexivity|]. left. eauto.
          - rewrite (not_http_error r2 Hok2). finish. intros [= <- <-].
            right. exists r1, loc. do 4 (split; [done|]).
            cbn [sent log]. rewrite <- !app_assoc.
            split; [reflexivity|]. right. exists r2. by repeat split. }
        destruct (is_RequestException e); finish; intros [= <- <-];
          right; exists r1, loc; (do 4 (split; [done|]));
          cbn [sent]; rewrite <- !app_assoc;
          (split; [reflexivity|]); left; eauto.
      * first_get Ht. step.
        rewrite (not_http_error r1 Hok). unfold Py.ret at 1.
        replace ((status_code r1 =? 302) || (status_code r1 =? 307))
          with true by (destruct Hs as [-> | ->]; reflexivity).
        cbv zeta. rewrite Hloc. cbn.
        intros [= <- <-]. left. cbn [sent]. eauto.
    + first_get Ht. step.
      rewrite (not_http_error r1 Hok). unfold Py.ret at 1.
      replace ((status_code r1 =? 302) || (status_code r1 =? 307))
        with false by (symmetry; apply orb_false_intro; lia).
      cbn. intros [= <- <-]. left. cbn [sent]. eauto.
  - first_get Ht.
    destruct (is_RequestException e); finish; intros [= <- <-];
      left; cbn [sent]; eauto.
Qed.

(** X6. Content is returned on the redirect path only: a fetch that
    returns [b] was answered 302 or 307 with a non-empty [Location],
    followed it with one GET that allows redirects, got a non-error
    answer whose body is [b], and logged its two INFO records. *)
Theorem fetch_step_content_success_inversion (w w' : World) (b : bytes) :
  fetch_step_content transport document_id workspace_id element_id
                     session base_url w
  = (w', Ok b) ->
  exists r1 loc r2,
    transport (sent w)
      (export_request session base_url document_id workspace_id element_id)
    = Ok r1 /\
    (status_code r1 = 302 \/ status_code r1 = 307) /\
    headers r1 !! "Location" = Some loc /\ loc <> "" /\
    transport
      (sent w ++
         [export_request session base_url document_id workspace_id
                         element_id])
      (get_request session loc true)
    = Ok r2 /\
    ¬ (400 <= status_code r2 < 600) /\
    b = content r2 /\
    requests_since w w'
    = [export_request session base_url document_id workspace_id element_id;
       get_request session loc true] /\
    logged_since w w'
    = [(INFO, "Following redirect to: " +:+ loc);
       (INFO, "STEP content fetched successfully.")].
Proof.
  intros Hrun.
  destruct (fetch_step_content_runs w w' (Ok b) Hrun)
    as [[_ [err Herr]]
       | (r1 & loc & Ht & Hs & Hloc & Hne & Hsent
          & [[err Herr] | (r2 & Ht2 & Hok2 & Hr & Hlog)])];
    try discriminate.
  exists r1, loc, r2. injection Hr as ->.
  unfold requests_since, logged_since.
  rewrite Hsent, Hlog, !drop_app_length. by repeat split.
Qed.

(** X7. No run issues more than two requests: the export request with
    redirects disabled, and at most one GET, with redirects allowed, to
    a non-empty redirect target. There is no retry. *)
Theorem fetch_step_content_request_budget (w : World) :
  requests_since w
    (fetch_step_content transport document_id workspace_id element_id
                        session base_url w).1
  = [export_request session base_url document_id workspace_id element_id]
  \/
  exists loc,
    loc <> "" /\
    requests_since w
      (fetch_step_content transport document_id workspace_id element_id
                          session base_url w).1
    = [export_request session base_url document_id workspace_id element_id;
       get_request session loc true].
Proof.
  destruct (fetch_step_content transport document_id workspace_id element_id
                               session base_url w) as [w' r] eqn:Hrun.
  cbn [fst]. unfold requests_since.
  destruct (fetch_step_content_runs w w' r Hrun)
    as [[Hsent _] | (r1 & loc & _ & _ & _ & Hne & Hsent & _)];
    rewrite Hsent, drop_app_length.
  - by left.
  - right. by exists loc.
Qed.

Variable default_headers : list (string * string).
Variable STEP_HEADERS : list (string * string).
Variables access_key secret_key : string.

(** [export_step] leaves the world as the fetch it runs leaves it. *)
Lemma export_step_world (w : World) :
  (export_step transport default_headers base_url STEP_HEADERS
               document_id workspace_id element_id access_key secret_key w).1
  = (fetch_step_content transport document_id workspace_id element_id
       (create_session default_headers access_key secret_key STEP_HEADERS)
       base_url
       {| sent := sent w;
          log := log w ++
            [(DEBUG, "Creating session for part studio export.")] |}).1.
Proof.
  unfold export_step. step. unfold logger_debug, logger. cbv zeta.
  step. destruct (fetch_step_content _ _ _ _ _ _ _) as [w1 [b|e]]; reflexivity.
Qed.

End Fetch.

(** Setting the items of a dict, in order, on a case-insensitive dict:
    the items win over what the dict held. *)
Lemma cid_update_union (items : list (string * string))
      (d : CaseInsensitiveDict) :
  cid_update items d = cid_of_items items ∪ d.
Proof.
  unfold cid_of_items. revert d.
  induction items as [|item items IH]; intros d; simpl.
  - by rewrite (left_id_L ∅ (∪)).
  - rewrite (IH (cid_set _ _ d)), (IH (cid_set _ _ ∅)).
    rewrite <- (assoc_L (∪)). f_equal.
    unfold cid_set. by rewrite <- insert_union_l, (left_id_L ∅ (∪)).
Qed.



(** With a default "Accept" and a passed "accept", a lookup of
    "Accept" finds the passed value. *)
Example create_session_replaces_up_to_case :
  cid_get "Accept"
    (session_headers
       (create_session [("Accept", "*/*")] "access" "secret"
                       [("accept", "application/step")]))
  = Some "application/step".
Proof. reflexivity. Qed.

(** X9. Every request [export_step] issues, the one to the redirect target
    included, carries the given credentials and all of [STEP_HEADERS];
    the first one goes to the export endpoint under [BASE_URL]. *)
Theorem export_step_requests_carry_credentials
        (transport : list Request -> Request -> result Response)
        (default_headers : list (string * string))
        (BASE_URL : string) (STEP_HEADERS : list (string * string))
        (document_id workspace_id element_id access_key secret_key : string)
        (w : World) :
  Forall (fun rq => req_auth rq = Some (access_key, secret_key) /\
                    cid_of_items STEP_HEADERS ⊆ req_headers rq)
         (requests_since w
            (export_step transport default_headers BASE_URL STEP_HEADERS
                         document_id workspace_id element_id
                         access_key secret_key w).1) /\
  (req_url <$>
     head (requests_since w
             (export_step transport default_headers BASE_URL STEP_HEADERS
                          document_id workspace_id element_id
                          access_key secret_key w).1))
  = Some (export_url BASE_URL document_id workspace_id element_id).
Proof.
  rewrite export_step_world.
  set (s := create_session default_headers access_key secret_key STEP_HEADERS).
  set (w0 := {| sent := sent w; log := _ |}).
  assert (Hs : forall u a,
             req_auth (get_request s u a) = Some (access_key, secret_key) /\
             cid_of_items STEP_HEADERS ⊆ req_headers (get_request s u a)).
  { intros u a. split; [reflexivity|].
    cbn [get_request req_headers s create_session session_headers].
    rewrite cid_update_union. apply map_union_subseteq_l. }
  destruct (fetch_step_content transport document_id workspace_id element_id
                               s BASE_URL w0) as [w' r] eqn:Hrun.
  cbn [fst]. unfold requests_since. change (sent w) with (sent w0).
  destruct (fetch_step_content_runs transport document_id workspace_id
              element_id BASE_URL s w0 w' r Hrun)
    as [[Hsent _] | (r1 & loc & _ & _ & _ & _ & Hsent & _)];
    rewrite Hsent, drop_app_length.
  - split; [|reflexivity]. repeat constructor; apply Hs.
  - split; [|reflexivity]. repeat constructor; apply Hs.
Qed.

(** *** The statements on mocked transports *)

Lemma fetch_step_content_network_failure_witness :
  fetch_step_content (Mock.scripted [Raise Mock.timed_out])
                     "d" "w" "e" Mock.session Mock.base Mock.idle
  = ({| sent := [Mock.first_request];
        log := [(ERROR, "Failed to fetch STEP content: Read timed out.")] |},
     Raise (Exn RuntimeError "Failed to fetch STEP content."
                (Some Mock.timed_out))).
Proof.
  apply (fetch_step_content_network_failure
           (Mock.scripted [Raise Mock.timed_out])
           "d" "w" "e" Mock.base Mock.session Mock.idle Mock.timed_out);
    reflexivity.
Defined.

Lemma fetch_step_content_foreign_exception_witness :
  fetch_step_content (Mock.scripted [Raise Mock.interrupted])
                     "d" "w" "e" Mock.session Mock.base Mock.idle
  = ({| sent := [Mock.first_request]; log := [] |}, Raise Mock.interrupted)
  /\
  fetch_step_content
    (Mock.scripted [Ok Mock.found_with_location; Raise Mock.interrupted])
    "d" "w" "e" Mock.session Mock.base Mock.idle
  = ({| sent := [Mock.first_request;
                 get_request Mock.session "http://x/payload" true];
        log := [(INFO, "Following redirect to: http://x/payload")] |},
     Raise Mock.interrupted).
Proof.
  split.
  - apply (fetch_step_content_foreign_exception
             (Mock.scripted [Raise Mock.interrupted])
             "d" "w" "e" Mock.base Mock.session Mock.idle Mock.interrupted);
      reflexivity.
  - apply (proj2 (fetch_step_content_foreign_exception
                    (Mock.scripted
                       [Ok Mock.found_with_location; Raise Mock.interrupted])
                    "d" "w" "e" Mock.base Mock.session Mock.idle
                    Mock.interrupted eq_refl)
                 Mock.found_with_location "http://x/payload");
      [reflexivity | left; reflexivity | reflexivity | discriminate
       | reflexivity].
Defined.

Lemma fetch_step_content_follow_up_http_error_witness :
  exists m,
    fetch_step_content
      (Mock.scripted [Ok Mock.temporary_redirect; Ok Mock.server_error])
      "d" "w" "e" Mock.session Mock.base Mock.idle
    = ({| sent := [Mock.first_request;
                   get_request Mock.session "http://x/payload" true];
          log := [(INFO, "Following redirect to: http://x/payload");
                  (ERROR, "Failed to fetch STEP content: " +:+ m)] |},
       Raise (Exn RuntimeError "Failed to fetch STEP content."
                  (Some (Exn HTTPError m None)))).
Proof.
  apply (fetch_step_content_follow_up_http_error
           (Mock.scripted [Ok Mock.temporary_redirect; Ok Mock.server_error])
           "d" "w" "e" Mock.base Mock.session Mock.idle
           Mock.temporary_redirect Mock.server_error "http://x/payload");
    [reflexivity | right; reflexivity | reflexivity | discriminate
     | reflexivity | simpl; lia].
Defined.

Lemma fetch_step_content_follow_up_network_failure_witness :
  fetch_step_content
    (Mock.scripted [Ok Mock.found_with_location; Raise Mock.timed_out])
    "d" "w" "e" Mock.session Mock.base Mock.idle
  = ({| sent := [Mock.first_request;
                 get_request Mock.session "http://x/payload" true];
        log := [(INFO, "Following redirect to: http://x/payload");
                (ERROR, "Failed to fetch STEP content: Read timed out.")] |},
     Raise (Exn RuntimeError "Failed to fetch STEP content."
                (Some Mock.timed_out))).
Proof.
  apply (fetch_step_content_follow_up_network_failure
           (Mock.scripted [Ok Mock.found_with_location; Raise Mock.timed_out])
           "d" "w" "e" Mock.base Mock.session Mock.idle
           Mock.found_with_location "http://x/payload" Mock.timed_out);
    [reflexivity | left; reflexivity | reflexivity | discriminate
     | reflexivity | reflexivity].
Defined.

Lemma fetch_step_content_returns_follow_up_body_witness :
  (fetch_step_content
     (Mock.scripted [Ok Mock.temporary_redirect; Ok Mock.no_content])
     "d" "w" "e" Mock.session Mock.base Mock.idle).2
  = Ok [] /\
  requests_since Mock.idle
    (fetch_step_content
       (Mock.scripted [Ok Mock.temporary_redirect; Ok Mock.no_content])
       "d" "w" "e" Mock.session Mock.base Mock.idle).1
  = [Mock.first_request; get_request Mock.session "http://x/payload" true].
Proof.
  apply (fetch_step_content_returns_follow_up_body
           (Mock.scripted [Ok Mock.temporary_redirect; Ok Mock.no_content])
           "d" "w" "e" Mock.base Mock.session Mock.idle
           Mock.temporary_redirect Mock.no_content "http://x/payload");
    [reflexivity | right; reflexivity | reflexivity | discriminate
     | reflexivity | simpl; lia].
Defined.

Lemma fetch_step_content_success_inversion_witness :
  exists r1 loc r2,
    Mock.scripted [Ok Mock.found_with_location; Ok Mock.ok_with_payload]
                  (sent Mock.idle) Mock.first_request
    = Ok r1 /\
    (status_code r1 = 302 \/ status_code r1 = 307) /\
    headers r1 !! "Location" = Some loc /\ loc <> "" /\
    Mock.scripted [Ok Mock.found_with_location; Ok Mock.ok_with_payload]
                  (sent Mock.idle ++ [Mock.first_request])
                  (get_request Mock.session loc true)
    = Ok r2 /\
    ¬ (400 <= status_code r2 < 600) /\
    Mock.payload = content r2 /\
    requests_since Mock.idle
      {| sent := [Mock.first_request;
                  get_request Mock.session "http://x/payload" true];
         log := [(INFO, "Following redirect to: http://x/payload");
                 (INFO, "STEP content fetched successfully.")] |}
    = [Mock.first_request; get_request Mock.session loc true] /\
    logged_since Mock.idle
      {| sent := [Mock.first_request;
                  get_request Mock.session "http://x/payload" true];
         log := [(INFO, "Following redirect to: http://x/payload");
                 (INFO, "STEP content fetched successfully.")] |}
    = [(INFO, "Following redirect to: " +:+ loc);
       (INFO, "STEP content fetched successfully.")].
Proof.
  apply (fetch_step_content_success_inversion
           (Mock.scripted
              [Ok Mock.found_with_location; Ok Mock.ok_with_payload])
           "d" "w" "e" Mock.base Mock.session Mock.idle).
  reflexivity.
Defined.

End ExporterBehaviour.

(** ** Further behaviour of the mesh conversion pipeline *)

Module ConverterBehaviour.

Import Converter Trace ConverterSpec.

(** Unfold the four stages down to the external calls. *)
Ltac stages :=
  unfold stl_to_vtk, create_2d_mesh, clean_mesh, tetrahedralize_mesh,
    save_mesh_to_vtk, call, call_fs, mbind, M_bind, Py.bind, mret, M_ret,
    Py.ret;
  cbn [calls fs].

Section Pipeline.

Context {L : Libraries}.

(** X10. When every routine returns, [stl_to_vtk] makes the six calls in
    order, each on what the one before handed back: the loaded surface
    is repaired, the repaired surface is tetrahedralized with the given
    options, and the resulting nodes and elements are written at the
    output path. *)
Theorem stl_to_vtk_success
        (stl_data : bytes) (output_path : string)
        (tetgen_options : option (gmap string PyVal)) (w : World)
        (loaded : trimesh.Trimesh) (meshfix repaired : pymeshfix.MeshFix)
        (tgen meshed : tetgen.TetGen) (files : FileSystem) :
  trimesh_load stl_data "stl" = Ok loaded ->
  MeshFix_new (trimesh.vertices loaded) (trimesh.faces loaded) = Ok meshfix ->
  MeshFix_repair meshfix {| verbose := true; joincomp := true;
                            remove_smallest_components := false |}
  = Ok repaired ->
  TetGen_new (pymeshfix.v repaired) (pymeshfix.f repaired) = Ok tgen ->
  TetGen_tetrahedralize tgen (default ∅ tetgen_options) = Ok meshed ->
  meshio_write output_path
    {| meshio.points := tetgen.node meshed;
       meshio.cells := [("tetra", tetgen.elem meshed)] |} (fs w)
  = (files, Ok tt) ->
  stl_to_vtk stl_data output_path tetgen_options w
  = ({| calls := calls w ++
            full_run stl_data output_path (default ∅ tetgen_options)
                     loaded meshfix repaired tgen meshed;
        fs := files |},
     Ok tt).
Proof.
  intros H1 H2 H3 H4 H5 H6. stages.
  rewrite H1. cbn [calls fs]. rewrite H2. cbn [calls fs]. rewrite H3.
  cbn [calls fs]. rewrite H4. cbn [calls fs].
  rewrite or_empty_dict_default, H5. cbn [calls fs]. rewrite H6.
  unfold full_run. rewrite <- !app_assoc. reflexivity.
Qed.

(** X11. A conversion that returns has made all six calls, each routine
    returned, and the file system is the one [meshio.write] left. *)
Theorem stl_to_vtk_success_inversion
        (stl_data : bytes) (output_path : string)
        (tetgen_options : option (gmap string PyVal)) (w w' : World)
        (u : unit) :
  stl_to_vtk stl_data output_path tetgen_options w = (w', Ok u) ->
  exists loaded meshfix repaired tgen meshed,
    trimesh_load stl_data "stl" = Ok loaded /\
    MeshFix_new (trimesh.vertices loaded) (trimesh.faces loaded)
    = Ok meshfix /\
    MeshFix_repair meshfix {| verbose := true; joincomp := true;
                              remove_smallest_components := false |}
    = Ok repaired /\
    TetGen_new (pymeshfix.v repaired) (pymeshfix.f repaired) = Ok tgen /\
    TetGen_tetrahedralize tgen (default ∅ tetgen_options) = Ok meshed /\
    meshio_write output_path
      {| meshio.points := tetgen.node meshed;
         meshio.cells := [("tetra", tetgen.elem meshed)] |} (fs w)
    = (fs w', Ok u) /\
    calls_since w w'
    = full_run stl_data output_path (default ∅ tetgen_options)
               loaded meshfix repaired tgen meshed.
Proof.
  stages. rewrite or_empty_dict_default.
  destruct (trimesh_load stl_data "stl") as [loaded|e] eqn:H1;
    [|discriminate]. cbn [calls fs].
  destruct (MeshFix_new _ _) as [meshfix|e] eqn:H2; [|discriminate].
  cbn [calls fs].
  destruct (MeshFix_repair meshfix _) as [repaired|e] eqn:H3; [|discriminate].
  cbn [calls fs].
  destruct (TetGen_new _ _) as [tgen|e] eqn:H4; [|discriminate].
  cbn [calls fs].
  destruct (TetGen_tetrahedralize tgen _) as [meshed|e] eqn:H5;
    [|discriminate]. cbn [calls fs].
  destruct (meshio_write _ _ _) as [files r] eqn:H6.
  intros [= <- ->].
  exists loaded, meshfix, repaired, tgen, meshed.
  do 5 (split; [done|]). split; [done|].
  unfold calls_since, full_run. cbn [calls].
  rewrite <- !app_assoc. apply drop_app_length.
Qed.

(** X15. An empty options dict is the same as no options. *)
Theorem tetrahedralize_mesh_empty_options
        (vertices : ndarray float) (faces : ndarray Z) (w : World) :
  tetrahedralize_mesh vertices faces (Some ∅) w
  = tetrahedralize_mesh vertices faces None w.
Proof.
  unfold tetrahedralize_mesh. by rewrite !or_empty_dict_default.
Qed.

(** X16. When the [MeshFix] constructor raises, [clean_mesh] raises the same
    exception and [repair] is not called. *)
Theorem clean_mesh_constructor_failure
        (vertices : ndarray float) (faces : ndarray Z) (w : World)
        (e : exn) :
  MeshFix_new vertices faces = Raise e ->
  clean_mesh vertices faces w
  = ({| calls := calls w ++ [CallMeshFix vertices faces]; fs := fs w |},
     Raise e).
Proof.
  intros H. stages. by rewrite H.
Qed.

(** X17. When the [TetGen] constructor raises, [tetrahedralize_mesh] raises
    the same exception and [tetrahedralize] is not called. *)
Theorem tetrahedralize_mesh_constructor_failure
        (vertices : ndarray float) (faces : ndarray Z)
        (tetgen_options : option (gmap string PyVal)) (w : World) (e : exn) :
  TetGen_new vertices faces = Raise e ->
  tetrahedralize_mesh vertices faces tetgen_options w
  = ({| calls := calls w ++ [CallTetGen vertices faces]; fs := fs w |},
     Raise e).
Proof.
  intros H. stages. by rewrite H.
Qed.

(** The calls of any run, stage by stage.  The last block is empty, and
    then the file system is untouched, or it is the one write. *)
Lemma stl_to_vtk_blocks
      (stl_data : bytes) (output_path : string)
      (tetgen_options : option (gmap string PyVal)) (w w' : World)
      (r : result unit) :
  stl_to_vtk stl_data output_path tetgen_options w = (w', r) ->
  exists c1 c2 c3 c4,
    calls_since w w' = c1 ++ c2 ++ c3 ++ c4 /\
    Forall (fun c => stage_of c = Parse) c1 /\
    Forall (fun c => stage_of c = Repair) c2 /\
    Forall (fun c => stage_of c = Tetrahedralize) c3 /\
    ((c4 = [] /\ fs w' = fs w) \/
     (exists nodes cells,
         c4 = [CallMeshioWrite output_path
                 {| meshio.points := nodes;
                    meshio.cells := [("tetra", cells)] |}])).
Proof.
  unfold stl_to_vtk, mbind, M_bind, Py.bind.
  pose proof (create_2d_mesh_touches stl_data w) as T1.
  destruct (create_2d_mesh stl_data w) as [w1 [[vs fcs]|e1]].
  - pose proof (clean_mesh_touches vs fcs w1) as T2.
    destruct (clean_mesh vs fcs w1) as [w2 [[cvs cfs]|e2]].
    + pose proof (tetrahedralize_mesh_touches cvs cfs tetgen_options w2)
        as T3.
      destruct (tetrahedralize_mesh cvs cfs tetgen_options w2)
        as [w3 [[nds cls]|e3]];
        cbn [fst] in T1, T2, T3;
        destruct T1 as (c1 & Hc1 & Hs1 & Hf1);
        destruct T2 as (c2 & Hc2 & Hs2 & Hf2);
        destruct T3 as (c3 & Hc3 & Hs3 & Hf3).
      * intros Hsave.
        pose proof (save_mesh_to_vtk_calls nds cls output_path w3) as Hc4.
        rewrite Hsave in Hc4. cbn [fst] in Hc4.
        exists c1, c2, c3, [CallMeshioWrite output_path
                              {| meshio.points := nds;
                                 meshio.cells := [("tetra", cls)] |}].
        split; [|by eauto 10].
        unfold calls_since.
        rewrite Hc4, Hc3, Hc2, Hc1, <- !app_assoc. apply drop_app_length.
      * intros [= <- <-]. exists c1, c2, c3, [].
        split; [|repeat split; try done; left; split; congruence].
        unfold calls_since. rewrite app_nil_r.
        rewrite Hc3, Hc2, Hc1, <- !app_assoc. apply drop_app_length.
    + intros [= <- <-]. cbn [fst] in T1, T2.
      destruct T1 as (c1 & Hc1 & Hs1 & Hf1).
      destruct T2 as (c2 & Hc2 & Hs2 & Hf2).
      exists c1, c2, [], [].
      split; [|repeat split; try done; left; split; congruence].
      unfold calls_since. cbn [app]. rewrite app_nil_r.
      rewrite Hc2, Hc1, <- !app_assoc. apply drop_app_length.
  - intros [= <- <-]. cbn [fst] in T1.
    destruct T1 as (c1 & Hc1 & Hs1 & Hf1).
    exists c1, [], [], [].
    split; [|repeat split; try done; by left].
    unfold calls_since. cbn [app]. rewrite app_nil_r, Hc1.
    apply drop_app_length.
Qed.

Lemma block_sorted (s : Stage) (cs : list Call) :
  Forall (fun c => stage_of c = s) cs -> StronglySorted stage_le cs.
Proof.
  induction 1 as [|c cs Hc Hcs IH]; constructor; [done|].
  eapply Forall_impl; [exact Hcs|].
  intros c' Hc'. unfold stage_le. rewrite Hc, Hc'. lia.
Qed.

Lemma blocks_sorted (s1 s2 : Stage) (l1 l2 : list Call) :
  (forall c, c ∈ l1 -> (stage_index (stage_of c) <= stage_index s1)%nat) ->
  (forall c, c ∈ l2 -> (stage_index s2 <= stage_index (stage_of c))%nat) ->
  (stage_index s1 <= stage_index s2)%nat ->
  StronglySorted stage_le l1 -> StronglySorted stage_le l2 ->
  StronglySorted stage_le (l1 ++ l2).
Proof.
  intros H1 H2 H12 S1 S2. apply StronglySorted_app_2; [|done..].
  intros x1 x2 Hx1 Hx2. unfold stage_le.
  specialize (H1 _ Hx1). specialize (H2 _ Hx2). lia.
Qed.

(** X13. In every run, failed or not, the external calls come in the order of
    the stages: no call of a stage is made after a call of a later one. *)
Theorem stl_to_vtk_stage_order
        (stl_data : bytes) (output_path : string)
        (tetgen_options : option (gmap string PyVal)) (w : World) :
  StronglySorted stage_le
    (calls_since w (stl_to_vtk stl_data output_path tetgen_options w).1).
Proof.
  destruct (stl_to_vtk stl_data output_path tetgen_options w)
    as [w' r] eqn:Hrun. cbn [fst].
  destruct (stl_to_vtk_blocks _ _ _ _ _ _ Hrun)
    as (c1 & c2 & c3 & c4 & -> & H1 & H2 & H3 & H4).
  assert (H4' : Forall (fun c => stage_of c = Serialize) c4).
  { destruct H4 as [[-> _] | (nodes & cells & ->)]; by repeat constructor. }
  rewrite Forall_forall in H1, H2, H3, H4'.
  apply (blocks_sorted Parse Repair).
  - intros c Hc. by rewrite (H1 c Hc).
  - intros c Hc. rewrite !elem_of_app in Hc.
    destruct Hc as [Hc | [Hc | Hc]];
      [rewrite (H2 c Hc) | rewrite (H3 c Hc) | rewrite (H4' c Hc)];
      simpl; lia.
  - simpl; lia.
  - apply (block_sorted Parse). by apply Forall_forall.
  - apply (blocks_sorted Repair Tetrahedralize).
    + intros c Hc. by rewrite (H2 c Hc).
    + intros c Hc. rewrite elem_of_app in Hc.
      destruct Hc as [Hc | Hc];
        [rewrite (H3 c Hc) | rewrite (H4' c Hc)]; simpl; lia.
    + simpl; lia.
    + apply (block_sorted Repair). by apply Forall_forall.
    + apply (blocks_sorted Tetrahedralize Serialize).
      * intros c Hc. by rewrite (H3 c Hc).
      * intros c Hc. by rewrite (H4' c Hc).
      * simpl; lia.
      * apply (block_sorted Tetrahedralize). by apply Forall_forall.
      * apply (block_sorted Serialize). by apply Forall_forall.
Qed.

(** X14. A run writes at most once, as its last call, at the output path and
    with a single cell block marked "tetra"; a run without that call
    leaves the file system as it was. *)
Theorem stl_to_vtk_writes_once
        (stl_data : bytes) (output_path : string)
        (tetgen_options : option (gmap string PyVal)) (w : World) :
  (filter is_write
     (calls_since w (stl_to_vtk stl_data output_path tetgen_options w).1)
   = [] /\
   fs (stl_to_vtk stl_data output_path tetgen_options w).1 = fs w) \/
  (exists nodes cells,
      filter is_write
        (calls_since w (stl_to_vtk stl_data output_path tetgen_options w).1)
      = [CallMeshioWrite output_path
           {| meshio.points := nodes; meshio.cells := [("tetra", cells)] |}]
      /\
      last (calls_since w
              (stl_to_vtk stl_data output_path tetgen_options w).1)
      = Some (CallMeshioWrite output_path
                {| meshio.points := nodes;
                   meshio.cells := [("tetra", cells)] |})).
Proof.
  destruct (stl_to_vtk stl_data output_path tetgen_options w)
    as [w' r] eqn:Hrun. cbn [fst].
  destruct (stl_to_vtk_blocks _ _ _ _ _ _ Hrun)
    as (c1 & c2 & c3 & c4 & -> & H1 & H2 & H3 & H4).
  assert (Hnone : forall s cs,
             s <> Serialize -> Forall (fun c => stage_of c = s) cs ->
             filter is_write cs = []).
  { intros s cs Hs. induction 1 as [|c cs Hc _ IH]; [done|].
    rewrite filter_cons, IH.
    destruct c; simpl in *; try done; congruence. }
  rewrite !filter_app.
  rewrite (Hnone Parse c1), (Hnone Repair c2), (Hnone Tetrahedralize c3)
    by done.
  destruct H4 as [[-> Hfs] | (nodes & cells & ->)].
  - left. by split.
  - right. exists nodes, cells. split; [reflexivity|].
    rewrite !app_assoc. apply last_snoc.
Qed.

End Pipeline.

(** *** The statements on mocked libraries *)

Lemma stl_to_vtk_success_witness :
  stl_to_vtk (L := Mock.working) [] "data/out.vtk" (Some Mock.quality)
             Mock.blank
  = ({| calls :=
          calls Mock.blank ++
          full_run [] "data/out.vtk" Mock.quality Mock.surface
                   {| pymeshfix.v := trimesh.vertices Mock.surface;
                      pymeshfix.f := trimesh.faces Mock.surface |}
                   {| pymeshfix.v := trimesh.vertices Mock.surface;
                      pymeshfix.f := trimesh.faces Mock.surface |}
                   {| tetgen.node := []; tetgen.elem := [] |}
                   Mock.volume;
        fs := {[ "data/out.vtk" :=
                   list_byte_of_string "# vtk DataFile Version 5.1" ]} |},
     Ok tt).
Proof.
  apply (stl_to_vtk_success (L := Mock.working)
           [] "data/out.vtk" (Some Mock.quality) Mock.blank Mock.surface);
    reflexivity.
Defined.

Lemma stl_to_vtk_success_inversion_witness :
  exists loaded meshfix repaired tgen meshed,
    trimesh_load (Libraries := Mock.working) [] "stl" = Ok loaded /\
    MeshFix_new (Libraries := Mock.working)
                (trimesh.vertices loaded) (trimesh.faces loaded)
    = Ok meshfix /\
    MeshFix_repair (Libraries := Mock.working) meshfix
                   {| verbose := true; joincomp := true;
                      remove_smallest_components := false |}
    = Ok repaired /\
    TetGen_new (Libraries := Mock.working)
               (pymeshfix.v repaired) (pymeshfix.f repaired) = Ok tgen /\
    TetGen_tetrahedralize (Libraries := Mock.working) tgen (default ∅ None)
    = Ok meshed /\
    meshio_write (Libraries := Mock.working) "data/out.vtk"
      {| meshio.points := tetgen.node meshed;
         meshio.cells := [("tetra", tetgen.elem meshed)] |} (fs Mock.blank)
    = (fs (stl_to_vtk (L := Mock.working) [] "data/out.vtk" None
                      Mock.blank).1, Ok tt) /\
    calls_since Mock.blank
      (stl_to_vtk (L := Mock.working) [] "data/out.vtk" None Mock.blank).1
    = full_run [] "data/out.vtk" (default ∅ None)
               loaded meshfix repaired tgen meshed.
Proof.
  apply (stl_to_vtk_success_inversion (L := Mock.working)
           [] "data/out.vtk" None Mock.blank).
  reflexivity.
Defined.

Lemma clean_mesh_constructor_failure_witness :
  clean_mesh (L := Mock.refusing_constructors) [] [] Mock.blank
  = ({| calls := [CallMeshFix [] []]; fs := ∅ |}, Raise Mock.bad_arrays).
Proof.
  apply (clean_mesh_constructor_failure (L := Mock.refusing_constructors)
           [] [] Mock.blank Mock.bad_arrays).
  reflexivity.
Defined.

Lemma tetrahedralize_mesh_constructor_failure_witness :
  tetrahedralize_mesh (L := Mock.refusing_constructors) [] []
                      (Some Mock.quality) Mock.blank
  = ({| calls := [CallTetGen [] []]; fs := ∅ |}, Raise Mock.bad_arrays).
Proof.
  apply (tetrahedralize_mesh_constructor_failure
           (L := Mock.refusing_constructors)
           [] [] (Some Mock.quality) Mock.blank Mock.bad_arrays).
  reflexivity.
Defined.

Lemma stl_to_vtk_failure_is_a_stage_failure_witness :
  exists s,
    stage_fails (L := Mock.refusing_constructors) [] "data/out.vtk" None
                Mock.blank s Mock.bad_arrays
                {| calls :=
                     [CallTrimeshLoad [] "stl";
                      CallMeshFix (trimesh.vertices Mock.surface)
                                  (trimesh.faces Mock.surface)];
                   fs := ∅ |}.
Proof.
  apply (stl_to_vtk_failure_is_a_stage_failure
           (L := Mock.refusing_constructors)).
  reflexivity.
Defined.

End ConverterBehaviour.
